(** * Calculadora de cuotas: the financing engine of
      [src/utils/financial-calculator.ts], embedded and verified.

    The repository holds three revisions of the calculator:

    - [Frances], the first part of [financial-calculator.ts]: French
      amortisation on the published TNA, nothing rounded, fee percentages
      not read;
    - [FrancesRedondeado], the copy kept in [unnamed/part_001]: French
      amortisation on the resulting TNA (TNA plus the four fee
      percentages), coefficients rounded to 6 decimals and currency amounts
      to 2;
    - [Procesador], the second part of [financial-calculator.ts]: the
      day-count method (28 days for the first instalment, 30 for the
      following ones, 360-day year).

    The spec calls the French system "Method A" and the day-count method
    "Method B".

    Numbers.  In [Frances], [FrancesRedondeado] and [Procesador] a
    TypeScript [number] is an exact rational [Q]: every operation is the
    mathematical one, there is no NaN, no infinity and no binary rounding
    error, [Math.round] is [floor (x + 1/2)], [Math.pow] at a whole
    exponent is the exact power and at any other exponent the host
    library's function, an interface here ([MathLib]).  This is the reading
    of the formulas the documentation gives, and what the program computes
    up to binary rounding.  The two part ways where rounding is not small: a
    monthly rate so tiny that it is lost when added to 1, a power that
    overflows, a product that falls a hair below a tie that [Math.round]
    would have sent up.  [Binario64] repeats the French revisions on IEEE
    754 binary64 numbers to show these cases by computation, and the
    statements on exact numbers that they touch are made in the ordinary
    range ([entradaCorriente]) only. *)

From Stdlib Require Import QArith Qround Qabs Qpower ZArith List Ascii String Bool.
From Stdlib Require Import Lia Lqa Morphisms Setoid.
From Stdlib Require Floats.
Import ListNotations.
Local Open Scope Q_scope.

(** ** The host library *)

(** [Math.pow] at a non-integer exponent: not part of the repository.  It
    is a function of numbers, so it cannot tell two fractions of one value
    apart. *)
Class MathLib :=
  { pow_real : Q -> Q -> Q;
    pow_real_compat : Proper (Qeq ==> Qeq ==> Qeq) pow_real }.

(** What the proofs about monotonicity ask of it: for a fixed positive
    exponent the power does not decrease with a non-negative base. *)
Class MathLibLaws (M : MathLib) : Prop :=
  { pow_real_mono :
      forall e x y : Q, 0 < e -> 0 <= x -> x <= y -> pow_real x e <= pow_real y e }.

(** [Number.isInteger] *)
Definition Number_isInteger (x : Q) : bool :=
  Qeq_bool x (inject_Z (Qfloor x)).

(** [Math.round]: the nearest integer, halves towards plus infinity. *)
Definition Math_round (x : Q) : Q := inject_Z (Qfloor (x + (1 # 2))).

(** The comparison [x < y] of two numbers. *)
Definition Qlt_bool (x y : Q) : bool := negb (Qle_bool y x).

(** [Math.pow] *)
Definition Math_pow `{MathLib} (x y : Q) : Q :=
  if Number_isInteger y then Qpower x (Qfloor y) else pow_real x y.

(** The two roundings the code writes inline, named for the statements:
    [Math.round(x * 1000000) / 1000000] and [Math.round(x * 100) / 100]. *)
Definition round6 (x : Q) : Q := Math_round (x * 1000000) / 1000000.
Definition round2 (x : Q) : Q := Math_round (x * 100) / 100.

(** ** Types ([src/types/financial.types.ts]) *)

Record CalculoFinancieroInput := mkInput
  { importe : Q;
    cuotas : Q;
    tna : Q;
    arancelProcesador : option Q;
    feeRiesgoProcesador : option Q;
    adicionalCobrador : option Q;
    impuestos : option Q;
    tnaCobrador : option Q }.

Record DetalleCuota := mkDetalle
  { d_numeroCuota : Q;
    d_importe : Q;
    d_tnaResultante : Q;
    d_cuota : Q;
    d_coeficiente : Q;
    d_coeficienteConIVA : Q;
    d_tea : Q;
    d_cft : Q;
    d_tasaDirecta : Q }.

(** [detallesPorCuota] exists only in the last revision of the type; the two
    French revisions return the object without the field ([None]). *)
Record ResultadoCalculos := mkResultado
  { coeficiente : Q;
    tasaDirecta : Q;
    coeficienteConIVA : Q;
    tea : Q;
    cft : Q;
    cuota : Q;
    cuotaConIVA : Q;
    montoTotal : Q;
    montoTotalConIVA : Q;
    interesTotal : Q;
    interesTotalConIVA : Q;
    detallesPorCuota : option (list DetalleCuota) }.

Record ValidationResult := mkValidation
  { isValid : bool;
    errorMessage : option string }.

(** [throw new Error(msg)]: the message is [undefined] when the validation
    result carries none. *)
Inductive Exception := Error (message : option string).

(** A call either throws or returns. *)
Inductive Completion (A : Type) :=
| Throw (e : Exception)
| Return (a : A).
Arguments Throw {A} e.
Arguments Return {A} a.

(** An absent optional field read with a default, [{ f = 0 } = input]. *)
Definition orDefault (d : Q) (o : option Q) : Q :=
  match o with Some v => v | None => d end.

(** ** Code shared, letter for letter, by the three revisions *)

(** [const IVA = 0.21] *)
Definition IVA : Q := 21 # 100.

Definition validarDatosEntrada (input : CalculoFinancieroInput) : ValidationResult :=
  if Qle_bool (importe input) 0 then
    {| isValid := false;
       errorMessage := Some "El importe debe ser mayor a cero"%string |}
  else if Qle_bool (cuotas input) 0 || negb (Number_isInteger (cuotas input)) then
    {| isValid := false;
       errorMessage := Some "El número de cuotas debe ser un entero mayor a cero"%string |}
  else if Qlt_bool (tna input) 0 then
    {| isValid := false;
       errorMessage := Some "La TNA no puede ser negativa"%string |}
  else {| isValid := true; errorMessage := None |}.

Definition calcularTEM (tna : Q) : Q := (tna / 100) / 12.

Definition calcularTasaDirecta (coeficiente cuotas : Q) : Q :=
  ((coeficiente * cuotas) - 1) * 100.

(** ** First revision: French system, nothing rounded *)

Module Frances.
Section Frances.
Context `{MathLib}.

(** Here [1 + tem] is the exact sum.  On binary64 numbers the sum is
    rounded: see [Binario64.Frances.calcularCoeficiente] for what that does
    to a monthly rate far below 1. *)
Definition calcularCoeficiente (tem cuotas : Q) : Q :=
  if Qeq_bool tem 0 then 1 / cuotas
  else
    let unoMasTEM := 1 + tem in
    let unoMasTEMElevadoCuotas := Math_pow unoMasTEM cuotas in
    (tem * unoMasTEMElevadoCuotas) / (unoMasTEMElevadoCuotas - 1).

Definition calcularCoeficienteConIVA (coeficiente : Q) : Q :=
  coeficiente * (1 + IVA).

Definition calcularTEA (tem : Q) : Q :=
  (Math_pow (1 + tem) 12 - 1) * 100.

Definition calcularCFT (coeficiente cuotas : Q) : Q :=
  let coeficientePorCuotas := coeficiente * cuotas in
  let exponenteCFT := 12 / cuotas in
  (Math_pow coeficientePorCuotas exponenteCFT - 1) * 100.

Definition calcularCuota (importe coeficiente : Q) : Q := importe * coeficiente.

Definition calcularMontoTotal (cuota numeroCuotas : Q) : Q := cuota * numeroCuotas.

Definition calcularInteresTotal (montoTotal importe : Q) : Q := montoTotal - importe.

Definition calcularFinanciamiento (input : CalculoFinancieroInput)
  : Completion ResultadoCalculos :=
  let validacion := validarDatosEntrada input in
  if negb (isValid validacion) then Throw (Error (errorMessage validacion))
  else
    let importe := importe input in
    let cuotas := cuotas input in
    let tna := tna input in
    let tem := calcularTEM tna in
    let coeficiente := calcularCoeficiente tem cuotas in
    let tasaDirecta := calcularTasaDirecta coeficiente cuotas in
    let coeficienteConIVA := calcularCoeficienteConIVA coeficiente in
    let tea := calcularTEA tem in
    let cft := calcularCFT coeficiente cuotas in
    let cuota := calcularCuota importe coeficiente in
    let cuotaConIVA := calcularCuota importe coeficienteConIVA in
    let montoTotal := calcularMontoTotal cuota cuotas in
    let montoTotalConIVA := calcularMontoTotal cuotaConIVA cuotas in
    let interesTotal := calcularInteresTotal montoTotal importe in
    let interesTotalConIVA := calcularInteresTotal montoTotalConIVA importe in
    Return
      {| coeficiente := coeficiente;
         tasaDirecta := tasaDirecta;
         coeficienteConIVA := coeficienteConIVA;
         tea := tea;
         cft := cft;
         cuota := cuota;
         cuotaConIVA := cuotaConIVA;
         montoTotal := montoTotal;
         montoTotalConIVA := montoTotalConIVA;
         interesTotal := interesTotal;
         interesTotalConIVA := interesTotalConIVA;
         detallesPorCuota := None |}.
End Frances.
End Frances.

(** ** Second revision: French system on the resulting TNA, rounded *)

Module FrancesRedondeado.
Section FrancesRedondeado.
Context `{MathLib}.

(** Here [1 + tem] is the exact sum; its binary64 counterpart is
    [Binario64.FrancesRedondeado.calcularCoeficiente]. *)
Definition calcularCoeficiente (tem cuotas : Q) : Q :=
  if Qeq_bool tem 0 then Math_round ((1 / cuotas) * 1000000) / 1000000
  else
    let unoMasTEM := 1 + tem in
    let unoMasTEMElevadoCuotas := Math_pow unoMasTEM cuotas in
    let coeficiente := (tem * unoMasTEMElevadoCuotas) / (unoMasTEMElevadoCuotas - 1) in
    Math_round (coeficiente * 1000000) / 1000000.

(** Here the product is exact and a tie goes up.  On binary64 numbers the
    product of a tie can fall below it and go down: see
    [Binario64.FrancesRedondeado.calcularCoeficienteConIVA]. *)
Definition calcularCoeficienteConIVA (coeficiente : Q) : Q :=
  let coeficienteConIVA := coeficiente * (1 + IVA) in
  Math_round (coeficienteConIVA * 1000000) / 1000000.

Definition calcularTEA (tem : Q) : Q :=
  (Math_pow (1 + tem) 12 - 1) * 100.

Definition calcularCFT (coeficiente cuotas : Q) : Q :=
  let coeficientePorCuotas := coeficiente * cuotas in
  let exponenteCFT := 12 / cuotas in
  (Math_pow coeficientePorCuotas exponenteCFT - 1) * 100.

Definition calcularCuota (importe coeficiente : Q) : Q :=
  let cuota := importe * coeficiente in
  Math_round (cuota * 100) / 100.

Definition calcularMontoTotal (cuota numeroCuotas : Q) : Q :=
  let montoTotal := cuota * numeroCuotas in
  Math_round (montoTotal * 100) / 100.

Definition calcularInteresTotal (montoTotal importe : Q) : Q :=
  let interesTotal := montoTotal - importe in
  Math_round (interesTotal * 100) / 100.

Definition calcularFinanciamiento (input : CalculoFinancieroInput)
  : Completion ResultadoCalculos :=
  let validacion := validarDatosEntrada input in
  if negb (isValid validacion) then Throw (Error (errorMessage validacion))
  else
    let importe := importe input in
    let cuotas := cuotas input in
    let tna := tna input in
    let arancelProcesador := orDefault 0 (arancelProcesador input) in
    let feeRiesgoProcesador := orDefault 0 (feeRiesgoProcesador input) in
    let adicionalCobrador := orDefault 0 (adicionalCobrador input) in
    let impuestos := orDefault 0 (impuestos input) in
    let tnaCobrador :=
      tna + arancelProcesador + feeRiesgoProcesador + adicionalCobrador + impuestos in
    let tem := calcularTEM tnaCobrador in
    let coeficiente := calcularCoeficiente tem cuotas in
    let tasaDirecta := calcularTasaDirecta coeficiente cuotas in
    let coeficienteConIVA := calcularCoeficienteConIVA coeficiente in
    let tea := calcularTEA tem in
    let cft := calcularCFT coeficiente cuotas in
    let cuota := calcularCuota importe coeficiente in
    let cuotaConIVA := calcularCuota importe coeficienteConIVA in
    let montoTotal := calcularMontoTotal cuota cuotas in
    let montoTotalConIVA := calcularMontoTotal cuotaConIVA cuotas in
    let interesTotal := calcularInteresTotal montoTotal importe in
    let interesTotalConIVA := calcularInteresTotal montoTotalConIVA importe in
    Return
      {| coeficiente := coeficiente;
         tasaDirecta := tasaDirecta;
         coeficienteConIVA := coeficienteConIVA;
         tea := tea;
         cft := cft;
         cuota := cuota;
         cuotaConIVA := cuotaConIVA;
         montoTotal := montoTotal;
         montoTotalConIVA := montoTotalConIVA;
         interesTotal := interesTotal;
         interesTotalConIVA := interesTotalConIVA;
         detallesPorCuota := None |}.
End FrancesRedondeado.
End FrancesRedondeado.

(** ** The counting loop of the last revision *)

(** [for (let i = desde; i <= hasta; i++) acc = body(i, acc)], with fuel.
    The loop stops when its guard fails; [vueltas] is the fuel that lets it
    (lemma [paraCadaCuota_fuel] below). *)
Fixpoint paraCadaCuota {A : Type} (fuel : nat) (hasta : Q)
    (body : Q -> A -> A) (i : Q) (acc : A) : A :=
  match fuel with
  | O => acc
  | S fuel' =>
      if Qle_bool i hasta
      then paraCadaCuota fuel' hasta body (i + 1) (body i acc)
      else acc
  end.

(** The number of turns of a loop that counts from 1 up to [hasta]. *)
Definition vueltas (hasta : Q) : nat := Z.to_nat (Qfloor hasta).

(** ** Third revision: the day-count method *)

Module Procesador.
Section Procesador.
Context `{MathLib}.

Definition calcularCoeficienteCuota (tna numeroCuota : Q) : Q :=
  let tnaDecimal := tna / 100 in
  let factor28Dias := 1 + (tnaDecimal * 28 / 360) in
  if Qeq_bool numeroCuota 1 then 1 / factor28Dias
  else
    let factor30Dias := 1 + (tnaDecimal * 30 / 360) in
    let exponente := numeroCuota - 1 in
    let factor30Elevado := Math_pow factor30Dias exponente in
    1 / (factor28Dias * factor30Elevado).

Definition calcularCostoFinanciero (valorNetoArancel cuotasPlan tna : Q) : Q :=
  let sumaCoeficientes :=
    paraCadaCuota (vueltas cuotasPlan) cuotasPlan
      (fun i sumaCoeficientes =>
         let coeficiente := calcularCoeficienteCuota tna i in
         sumaCoeficientes + coeficiente)
      1 0 in
  let factorDescuento := (1 / cuotasPlan) * sumaCoeficientes in
  let costoFinanciero := valorNetoArancel * (1 - factorDescuento) in
  costoFinanciero.

Definition calcularCoeficientePromedio (tna cuotas : Q) : Q :=
  let sumaCoeficientes :=
    paraCadaCuota (vueltas cuotas) cuotas
      (fun i sumaCoeficientes => sumaCoeficientes + calcularCoeficienteCuota tna i)
      1 0 in
  let promedioCoeficientesDescuento := sumaCoeficientes / cuotas in
  let coeficiente := 1 / promedioCoeficientesDescuento in
  Math_round (coeficiente * 1000000) / 1000000.

Definition calcularCoeficiente (tna cuotas : Q) : Q :=
  if Qeq_bool tna 0 then Math_round ((1 / cuotas) * 1000000) / 1000000
  else calcularCoeficientePromedio tna cuotas.

(** Here the product is exact and a tie goes up; its binary64 counterpart
    is [Binario64.Procesador.calcularCoeficienteConIVA]. *)
Definition calcularCoeficienteConIVA (coeficiente : Q) : Q :=
  let coeficienteConIVA := coeficiente * (1 + IVA) in
  Math_round (coeficienteConIVA * 1000000) / 1000000.

Definition calcularCFT (importe cuotas tna : Q) : Q :=
  let costoFinanciero := calcularCostoFinanciero importe cuotas tna in
  (costoFinanciero / importe) * 100.

Definition calcularTEA (importe cuotas tna : Q) : Q :=
  let cft := calcularCFT importe cuotas tna in
  let costoFinanciero := calcularCostoFinanciero importe cuotas tna in
  let montoTotal := importe + costoFinanciero in
  let diasTotales := 28 + (30 * (cuotas - 1)) in
  let años := diasTotales / 360 in
  if Qlt_bool 0 años && Qlt_bool 0 importe then
    let tea := (Math_pow (montoTotal / importe) (1 / años) - 1) * 100 in
    tea
  else cft.

Definition calcularCuota (importe coeficiente : Q) : Q :=
  let cuota := importe * coeficiente in
  Math_round (cuota * 100) / 100.

Definition calcularMontoTotal (cuota numeroCuotas : Q) : Q :=
  let montoTotal := cuota * numeroCuotas in
  Math_round (montoTotal * 100) / 100.

Definition calcularInteresTotal (montoTotal importe : Q) : Q :=
  let interesTotal := montoTotal - importe in
  Math_round (interesTotal * 100) / 100.

Definition calcularDetallesPorCuota
    (importe cuotas tnaCobrador coeficientePromedio tea cft tasaDirecta : Q)
  : list DetalleCuota :=
  let cuota := calcularCuota importe coeficientePromedio in
  paraCadaCuota (vueltas cuotas) cuotas
    (fun i detalles =>
       let coeficienteCuota := calcularCoeficienteCuota tnaCobrador i in
       let coeficienteCuotaConIVA := calcularCoeficienteConIVA coeficienteCuota in
       detalles ++
         [ {| d_numeroCuota := i;
              d_importe := importe;
              d_tnaResultante := tnaCobrador;
              d_cuota := cuota;
              d_coeficiente := Math_round (coeficienteCuota * 1000000) / 1000000;
              d_coeficienteConIVA :=
                Math_round (coeficienteCuotaConIVA * 1000000) / 1000000;
              d_tea := tea;
              d_cft := cft;
              d_tasaDirecta := tasaDirecta |} ])
    1 [].

Definition calcularFinanciamiento (input : CalculoFinancieroInput)
  : Completion ResultadoCalculos :=
  let validacion := validarDatosEntrada input in
  if negb (isValid validacion) then Throw (Error (errorMessage validacion))
  else
    let importe := importe input in
    let cuotas := cuotas input in
    let tna := tna input in
    let arancelProcesador := orDefault 0 (arancelProcesador input) in
    let feeRiesgoProcesador := orDefault 0 (feeRiesgoProcesador input) in
    let adicionalCobrador := orDefault 0 (adicionalCobrador input) in
    let impuestos := orDefault 0 (impuestos input) in
    let tnaCobrador :=
      tna + arancelProcesador + feeRiesgoProcesador + adicionalCobrador + impuestos in
    let coeficiente := calcularCoeficiente tnaCobrador cuotas in
    let tasaDirecta := calcularTasaDirecta coeficiente cuotas in
    let coeficienteConIVA := calcularCoeficienteConIVA coeficiente in
    let tea := calcularTEA importe cuotas tnaCobrador in
    let cft := calcularCFT importe cuotas tnaCobrador in
    let cuota := calcularCuota importe coeficiente in
    let cuotaConIVA := calcularCuota importe coeficienteConIVA in
    let montoTotal := calcularMontoTotal cuota cuotas in
    let montoTotalConIVA := calcularMontoTotal cuotaConIVA cuotas in
    let interesTotal := calcularInteresTotal montoTotal importe in
    let interesTotalConIVA := calcularInteresTotal montoTotalConIVA importe in
    let detallesPorCuota :=
      calcularDetallesPorCuota importe cuotas tnaCobrador coeficiente tea cft tasaDirecta in
    Return
      {| coeficiente := coeficiente;
         tasaDirecta := tasaDirecta;
         coeficienteConIVA := coeficienteConIVA;
         tea := tea;
         cft := cft;
         cuota := cuota;
         cuotaConIVA := cuotaConIVA;
         montoTotal := montoTotal;
         montoTotalConIVA := montoTotalConIVA;
         interesTotal := interesTotal;
         interesTotalConIVA := interesTotalConIVA;
         detallesPorCuota := Some detallesPorCuota |}.
End Procesador.
End Procesador.

(** ** The same code on binary64 numbers *)

(** The French revisions once more, this time on the numbers JavaScript
    computes with: every [number] is an IEEE 754 binary64 [float], every
    operation is the rounded one, a division by 0 gives an infinity or NaN,
    and a decimal literal stands for the nearest binary64 number.  The
    definitions repeat the source statement for statement, as those above
    do; they are what the exact ones are measured against. *)
Set Warnings "-inexact-float".

Module Binario64.
Import PrimFloat FloatOps.
Local Open Scope float_scope.

(** [Math.pow], the host's function at every exponent. *)
Class MathLib := { Math_pow : float -> float -> float }.

(** 2^52: from here on every binary64 number is whole. *)
Definition dos52 : float := 4503599627370496.

(** The largest whole number not above [x]. *)
Definition parteEntera (x : float) : float :=
  if abs x <? dos52 then
    let a := abs x in
    let r := (a + dos52) - dos52 in
    let t := if a <? r then r - 1 else r in
    if 0 <=? x then t else if t =? a then - t else - (t + 1)
  else x.

(** [Math.round]: the nearest whole number, a tie going up; NaN, the
    infinities and the numbers from 2^52 on are returned as they are. *)
Definition Math_round (x : float) : float :=
  if abs x <? dos52 then
    let f := parteEntera x in
    let r := if (x - f) <? 0.5 then f else f + 1 in
    if (r =? 0) && get_sign x then neg_zero else r
  else x.

(** [Number.isInteger] *)
Definition Number_isInteger (x : float) : bool :=
  is_finite x && (parteEntera x =? x).

(** The value of a finite binary64 number as a fraction (0 for the others). *)
Definition valorExacto (x : float) : Q :=
  match Prim2SF x with
  | SpecFloat.S754_finite s m e =>
      ((if s then - inject_Z (Zpos m) else inject_Z (Zpos m)) * Qpower 2 e)%Q
  | _ => 0%Q
  end.

(** A finite binary64 number within 1e-10 of a fraction. *)
Definition cerca (x : float) (q : Q) : Prop :=
  is_finite x = true /\ (Qabs (valorExacto x - q) <= 1 # 10 ^ 10)%Q.

Record CalculoFinancieroInput := mkInput
  { importe : float;
    cuotas : float;
    tna : float;
    arancelProcesador : option float;
    feeRiesgoProcesador : option float;
    adicionalCobrador : option float;
    impuestos : option float;
    tnaCobrador : option float }.

Record ResultadoCalculos := mkResultado
  { coeficiente : float;
    tasaDirecta : float;
    coeficienteConIVA : float;
    tea : float;
    cft : float;
    cuota : float;
    cuotaConIVA : float;
    montoTotal : float;
    montoTotalConIVA : float;
    interesTotal : float;
    interesTotalConIVA : float }.

Definition orDefault (d : float) (o : option float) : float :=
  match o with Some v => v | None => d end.

Definition IVA : float := 0.21.

Definition validarDatosEntrada (input : CalculoFinancieroInput) : ValidationResult :=
  if importe input <=? 0 then
    {| isValid := false;
       errorMessage := Some "El importe debe ser mayor a cero"%string |}
  else if (cuotas input <=? 0) || negb (Number_isInteger (cuotas input)) then
    {| isValid := false;
       errorMessage := Some "El número de cuotas debe ser un entero mayor a cero"%string |}
  else if tna input <? 0 then
    {| isValid := false;
       errorMessage := Some "La TNA no puede ser negativa"%string |}
  else {| isValid := true; errorMessage := None |}.

Definition calcularTEM (tna : float) : float := (tna / 100) / 12.

Definition calcularTasaDirecta (coeficiente cuotas : float) : float :=
  ((coeficiente * cuotas) - 1) * 100.

Module Frances.
Section Frances.
Context `{MathLib}.

Definition calcularCoeficiente (tem cuotas : float) : float :=
  if tem =? 0 then 1 / cuotas
  else
    let unoMasTEM := 1 + tem in
    let unoMasTEMElevadoCuotas := Math_pow unoMasTEM cuotas in
    (tem * unoMasTEMElevadoCuotas) / (unoMasTEMElevadoCuotas - 1).

Definition calcularCoeficienteConIVA (coeficiente : float) : float :=
  coeficiente * (1 + IVA).

Definition calcularTEA (tem : float) : float :=
  (Math_pow (1 + tem) 12 - 1) * 100.

Definition calcularCFT (coeficiente cuotas : float) : float :=
  let coeficientePorCuotas := coeficiente * cuotas in
  let exponenteCFT := 12 / cuotas in
  (Math_pow coeficientePorCuotas exponenteCFT - 1) * 100.

Definition calcularCuota (importe coeficiente : float) : float := importe * coeficiente.

Definition calcularMontoTotal (cuota numeroCuotas : float) : float :=
  cuota * numeroCuotas.

Definition calcularInteresTotal (montoTotal importe : float) : float :=
  montoTotal - importe.

Definition calcularFinanciamiento (input : CalculoFinancieroInput)
  : Completion ResultadoCalculos :=
  let validacion := validarDatosEntrada input in
  if negb (isValid validacion) then Throw (Error (errorMessage validacion))
  else
    let importe := importe input in
    let cuotas := cuotas input in
    let tna := tna input in
    let tem := calcularTEM tna in
    let coeficiente := calcularCoeficiente tem cuotas in
    let tasaDirecta := calcularTasaDirecta coeficiente cuotas in
    let coeficienteConIVA := calcularCoeficienteConIVA coeficiente in
    let tea := calcularTEA tem in
    let cft := calcularCFT coeficiente cuotas in
    let cuota := calcularCuota importe coeficiente in
    let cuotaConIVA := calcularCuota importe coeficienteConIVA in
    let montoTotal := calcularMontoTotal cuota cuotas in
    let montoTotalConIVA := calcularMontoTotal cuotaConIVA cuotas in
    let interesTotal := calcularInteresTotal montoTotal importe in
    let interesTotalConIVA := calcularInteresTotal montoTotalConIVA importe in
    Return
      {| coeficiente := coeficiente;
         tasaDirecta := tasaDirecta;
         coeficienteConIVA := coeficienteConIVA;
         tea := tea;
         cft := cft;
         cuota := cuota;
         cuotaConIVA := cuotaConIVA;
         montoTotal := montoTotal;
         montoTotalConIVA := montoTotalConIVA;
         interesTotal := interesTotal;
         interesTotalConIVA := interesTotalConIVA |}.
End Frances.
End Frances.

Module FrancesRedondeado.
Section FrancesRedondeado.
Context `{MathLib}.

Definition calcularCoeficiente (tem cuotas : float) : float :=
  if tem =? 0 then Math_round ((1 / cuotas) * 1000000) / 1000000
  else
    let unoMasTEM := 1 + tem in
    let unoMasTEMElevadoCuotas := Math_pow unoMasTEM cuotas in
    let coeficiente := (tem * unoMasTEMElevadoCuotas) / (unoMasTEMElevadoCuotas - 1) in
    Math_round (coeficiente * 1000000) / 1000000.

Definition calcularCoeficienteConIVA (coeficiente : float) : float :=
  let coeficienteConIVA := coeficiente * (1 + IVA) in
  Math_round (coeficienteConIVA * 1000000) / 1000000.

Definition calcularTEA (tem : float) : float :=
  (Math_pow (1 + tem) 12 - 1) * 100.

Definition calcularCFT (coeficiente cuotas : float) : float :=
  let coeficientePorCuotas := coeficiente * cuotas in
  let exponenteCFT := 12 / cuotas in
  (Math_pow coeficientePorCuotas exponenteCFT - 1) * 100.

Definition calcularCuota (importe coeficiente : float) : float :=
  let cuota := importe * coeficiente in
  Math_round (cuota * 100) / 100.

Definition calcularMontoTotal (cuota numeroCuotas : float) : float :=
  let montoTotal := cuota * numeroCuotas in
  Math_round (montoTotal * 100) / 100.

Definition calcularInteresTotal (montoTotal importe : float) : float :=
  let interesTotal := montoTotal - importe in
  Math_round (interesTotal * 100) / 100.

Definition calcularFinanciamiento (input : CalculoFinancieroInput)
  : Completion ResultadoCalculos :=
  let validacion := validarDatosEntrada input in
  if negb (isValid validacion) then Throw (Error (errorMessage validacion))
  else
    let importe := importe input in
    let cuotas := cuotas input in
    let tna := tna input in
    let arancelProcesador := orDefault 0 (arancelProcesador input) in
    let feeRiesgoProcesador := orDefault 0 (feeRiesgoProcesador input) in
    let adicionalCobrador := orDefault 0 (adicionalCobrador input) in
    let impuestos := orDefault 0 (impuestos input) in
    let tnaCobrador :=
      tna + arancelProcesador + feeRiesgoProcesador + adicionalCobrador + impuestos in
    let tem := calcularTEM tnaCobrador in
    let coeficiente := calcularCoeficiente tem cuotas in
    let tasaDirecta := calcularTasaDirecta coeficiente cuotas in
    let coeficienteConIVA := calcularCoeficienteConIVA coeficiente in
    let tea := calcularTEA tem in
    let cft := calcularCFT coeficiente cuotas in
    let cuota := calcularCuota importe coeficiente in
    let cuotaConIVA := calcularCuota importe coeficienteConIVA in
    let montoTotal := calcularMontoTotal cuota cuotas in
    let montoTotalConIVA := calcularMontoTotal cuotaConIVA cuotas in
    let interesTotal := calcularInteresTotal montoTotal importe in
    let interesTotalConIVA := calcularInteresTotal montoTotalConIVA importe in
    Return
      {| coeficiente := coeficiente;
         tasaDirecta := tasaDirecta;
         coeficienteConIVA := coeficienteConIVA;
         tea := tea;
         cft := cft;
         cuota := cuota;
         cuotaConIVA := cuotaConIVA;
         montoTotal := montoTotal;
         montoTotalConIVA := montoTotalConIVA;
         interesTotal := interesTotal;
         interesTotalConIVA := interesTotalConIVA |}.
End FrancesRedondeado.
End FrancesRedondeado.

(** Of the day-count revision, the coefficient with IVA: the same text as
    in the rounded French revision. *)
Module Procesador.
Definition calcularCoeficienteConIVA (coeficiente : float) : float :=
  let coeficienteConIVA := coeficiente * (1 + IVA) in
  Math_round (coeficienteConIVA * 1000000) / 1000000.
End Procesador.

(** A stand-in for [Math.pow] to run the code on examples: at a whole
    exponent from 0 to 400 the power by repeated multiplication, NaN
    elsewhere.  At the base 1 it returns 1, as every [Math.pow] does. *)
Fixpoint potenciaHasta (fuel : nat) (x y k acc : float) : float :=
  match fuel with
  | O => nan
  | S fuel' => if y =? k then acc else potenciaHasta fuel' x y (k + 1) (acc * x)
  end.

Definition MathLib_ejemplo : MathLib :=
  {| Math_pow := fun x y => potenciaHasta 401 x y 0 1 |}.

(** 10000 pesos in 12 instalments at nominal rates of 1e-14 % and 1e-12 %:
    valid inputs whose monthly rate is lost, wholly or in part, when it is
    added to 1. *)
Definition ejemplo_tna_infima : CalculoFinancieroInput :=
  mkInput 10000 12 1e-14 None None None None None.
Definition ejemplo_tna_minima : CalculoFinancieroInput :=
  mkInput 10000 12 1e-12 None None None None None.
Definition ejemplo_tna_1 : CalculoFinancieroInput :=
  mkInput 10000 12 1 None None None None None.
Definition ejemplo_tna_0 : CalculoFinancieroInput :=
  mkInput 10000 12 0 None None None None None.
End Binario64.

(** A stand-in host library for running the code on examples: the exact
    power at integer exponents, and the base itself elsewhere. *)
Definition MathLib_ejemplo : MathLib :=
  {| pow_real := fun x _ => x;
     pow_real_compat := fun x x' Hx _ _ _ => Hx |}.

(** ** The text fields of the form ([CalculatorForm]) *)

(** [\d] *)
Definition esDigito (c : ascii) : bool :=
  (48 <=? nat_of_ascii c)%nat && (nat_of_ascii c <=? 57)%nat.

(** What is left of a text after its leading digits, [\d*]. *)
Fixpoint saltarDigitos (s : string) : string :=
  match s with
  | EmptyString => EmptyString
  | String c resto => if esDigito c then saltarDigitos resto else s
  end.

(** [/^\d*\.?\d*$/.test(value)]: digits, at most one dot, digits, and
    nothing else.  Digits and the dot being different characters, the
    greedy match never has to step back. *)
Definition esTextoDecimal (value : string) : bool :=
  match saltarDigitos value with
  | EmptyString => true
  | String c resto =>
      if Ascii.eqb c "."%char
      then match saltarDigitos resto with EmptyString => true | _ => false end
      else false
  end.

(** The three change handlers have the same body: the typed value replaces
    the content of the field when it is empty or passes the test, and is
    dropped otherwise.  The field is the state the setter writes. *)
Definition handleImporteChange (importe value : string) : string :=
  if String.eqb value ""%string || esTextoDecimal value then value else importe.

Definition handleTnaChange (tna value : string) : string :=
  if String.eqb value ""%string || esTextoDecimal value then value else tna.

Definition handlePorcentualChange (campo value : string) : string :=
  if String.eqb value ""%string || esTextoDecimal value then value else campo.

(** A text made of digits and at most one dot: no sign, no exponent, no
    blank. *)
Definition sinSigno (s : string) : Prop :=
  Forall (fun c => esDigito c = true \/ c = "."%char) (list_ascii_of_string s) /\
  (count_occ ascii_dec (list_ascii_of_string s) "."%char <= 1)%nat.

(** ** Vocabulary of the statements *)

(** A number that is a whole number. *)
Definition esEntero (x : Q) : Prop := exists z : Z, x == inject_Z z.

(** The inputs the validator lets through. *)
Definition entradaValida (input : CalculoFinancieroInput) : Prop :=
  0 < importe input /\ 0 < cuotas input /\ esEntero (cuotas input) /\ 0 <= tna input.

(** What a call of [calcularFinanciamiento] may end in, rule by rule, the
    first failing rule deciding. *)
Inductive Veredicto (input : CalculoFinancieroInput)
  : Completion ResultadoCalculos -> Prop :=
| veredicto_importe :
    importe input <= 0 ->
    Veredicto input (Throw (Error (Some "El importe debe ser mayor a cero"%string)))
| veredicto_cuotas :
    0 < importe input ->
    cuotas input <= 0 \/ ~ esEntero (cuotas input) ->
    Veredicto input
      (Throw (Error (Some "El número de cuotas debe ser un entero mayor a cero"%string)))
| veredicto_tna :
    0 < importe input -> 0 < cuotas input -> esEntero (cuotas input) ->
    tna input < 0 ->
    Veredicto input (Throw (Error (Some "La TNA no puede ser negativa"%string)))
| veredicto_resultado :
    entradaValida input ->
    forall r : ResultadoCalculos, Veredicto input (Return r).

(** The same table for the validator alone. *)
Inductive Validacion (input : CalculoFinancieroInput) : ValidationResult -> Prop :=
| validacion_importe :
    importe input <= 0 ->
    Validacion input
      {| isValid := false;
         errorMessage := Some "El importe debe ser mayor a cero"%string |}
| validacion_cuotas :
    0 < importe input ->
    cuotas input <= 0 \/ ~ esEntero (cuotas input) ->
    Validacion input
      {| isValid := false;
         errorMessage :=
           Some "El número de cuotas debe ser un entero mayor a cero"%string |}
| validacion_tna :
    0 < importe input -> 0 < cuotas input -> esEntero (cuotas input) ->
    tna input < 0 ->
    Validacion input
      {| isValid := false;
         errorMessage := Some "La TNA no puede ser negativa"%string |}
| validacion_valida :
    entradaValida input ->
    Validacion input {| isValid := true; errorMessage := None |}.

(** 1 + x + ... + x^(n-1) *)
Fixpoint geometrica (x : Q) (n : nat) : Q :=
  match n with
  | O => 0
  | S m => geometrica x m + x ^ Z.of_nat m
  end.

(** The worked examples of the documentation: 10000 pesos in 3 instalments
    at 50 %, in 12 instalments at 120 %, and the latter with a 5 % arancel. *)
Definition ejemplo_procesador : CalculoFinancieroInput :=
  mkInput 10000 3 50 None None None None None.
Definition ejemplo_frances : CalculoFinancieroInput :=
  mkInput 10000 12 120 None None None None None.
Definition ejemplo_con_arancel : CalculoFinancieroInput :=
  mkInput 10000 12 120 (Some 5) None None None None.
Definition ejemplo_tasa_cero : CalculoFinancieroInput :=
  mkInput 10000 3 0 None None None None None.

(** Two pairs of inputs that differ in the nominal rate only: 50 % and 60 %
    with a 5 % arancel, and 0 % and 1 % with an arancel of -1 %, a rebate
    that brings the resulting rate of the first to -1 % and that of the
    second to 0 %. *)
Definition ejemplo_tna_50 : CalculoFinancieroInput :=
  mkInput 10000 3 50 (Some 5) None None None None.
Definition ejemplo_tna_60 : CalculoFinancieroInput :=
  mkInput 10000 3 60 (Some 5) None None None None.
Definition ejemplo_rebaja_tna_0 : CalculoFinancieroInput :=
  mkInput 10000 2 0 (Some (-1)) None None None None.
Definition ejemplo_rebaja_tna_1 : CalculoFinancieroInput :=
  mkInput 10000 2 1 (Some (-1)) None None None None.

(** The stand-in library keeps the order of the bases. *)
Definition MathLibLaws_ejemplo : MathLibLaws MathLib_ejemplo :=
  Build_MathLibLaws MathLib_ejemplo
    (fun (e x y : Q) (_ : 0 < e) (_ : 0 <= x) (Hxy : x <= y) => Hxy).

(** Total minus interest gives back the amount financed, to half a cent,
    with and without IVA. *)
Definition cuadra (input : CalculoFinancieroInput) (r : ResultadoCalculos) : Prop :=
  Qabs (montoTotal r - interesTotal r - importe input) <= 1 # 200 /\
  Qabs (montoTotalConIVA r - interesTotalConIVA r - importe input) <= 1 # 200.

(** No fee is given, or every fee given is 0. *)
Definition sinAdicionales (input : CalculoFinancieroInput) : Prop :=
  orDefault 0 (arancelProcesador input) == 0 /\
  orDefault 0 (feeRiesgoProcesador input) == 0 /\
  orDefault 0 (adicionalCobrador input) == 0 /\
  orDefault 0 (impuestos input) == 0.

(** Two inputs carry the same four fees. *)
Definition mismosAdicionales (a b : CalculoFinancieroInput) : Prop :=
  arancelProcesador a = arancelProcesador b /\
  feeRiesgoProcesador a = feeRiesgoProcesador b /\
  adicionalCobrador a = adicionalCobrador b /\
  impuestos a = impuestos b.

(** The four indicators of the second result are not below those of the
    first. *)
Definition noMenor (ra rb : ResultadoCalculos) : Prop :=
  coeficiente ra <= coeficiente rb /\
  tasaDirecta ra <= tasaDirecta rb /\
  tea ra <= tea rb /\
  cft ra <= cft rb.

(** ** The formulas of the spec, in its own words *)

(** A natural number as a [number]. *)
Definition num (n : nat) : Q := inject_Z (Z.of_nat n).

Module Spec.
Section Spec.
Context `{MathLib}.

(** 4.2: nominal rate plus the four fees, an absent fee counting 0. *)
Definition resultantRate (input : CalculoFinancieroInput) : Q :=
  tna input + orDefault 0 (arancelProcesador input)
    + orDefault 0 (feeRiesgoProcesador input)
    + orDefault 0 (adicionalCobrador input)
    + orDefault 0 (impuestos input).

(** 4.3, strategy A. *)
Definition monthlyRate (rate : Q) : Q := (rate / 100) / 12.

Definition annuityFactor (monthlyRate : Q) (installmentCount : nat) : Q :=
  if Qeq_bool monthlyRate 0 then 1 / num installmentCount
  else
    (monthlyRate * (1 + monthlyRate) ^ Z.of_nat installmentCount)
    / ((1 + monthlyRate) ^ Z.of_nat installmentCount - 1).

(** 4.3, strategy B. *)
Definition factor28 (rate : Q) : Q := 1 + (rate / 100) * 28 / 360.
Definition factor30 (rate : Q) : Q := 1 + (rate / 100) * 30 / 360.

Definition discountCoefficient (rate : Q) (i : nat) : Q :=
  if (i =? 1)%nat then 1 / factor28 rate
  else 1 / (factor28 rate * factor30 rate ^ (Z.of_nat i - 1)).

(** The sum of the discount coefficients over i = 1..installmentCount. *)
Definition sumDiscount (rate : Q) (installmentCount : nat) : Q :=
  fold_right Qplus 0 (map (discountCoefficient rate) (seq 1 installmentCount)).

Definition meanDiscount (rate : Q) (installmentCount : nat) : Q :=
  sumDiscount rate installmentCount / num installmentCount.

(** 4.4, method B. *)
Definition financialCost (amount : Q) (installmentCount : nat) (rate : Q) : Q :=
  amount * (1 - (1 / num installmentCount) * sumDiscount rate installmentCount).

Definition totalDays (installmentCount : nat) : Q :=
  28 + 30 * (num installmentCount - 1).

Definition years (installmentCount : nat) : Q := totalDays installmentCount / 360.

Definition totalFinancialCostPct
    (amount : Q) (installmentCount : nat) (rate : Q) : Q :=
  (financialCost amount installmentCount rate / amount) * 100.

Definition effectiveAnnualRate
    (amount : Q) (installmentCount : nat) (rate : Q) : Q :=
  let totalPayable := amount + financialCost amount installmentCount rate in
  if Qlt_bool 0 (years installmentCount) && Qlt_bool 0 amount
  then (Math_pow (totalPayable / amount) (1 / years installmentCount) - 1) * 100
  else totalFinancialCostPct amount installmentCount rate.
End Spec.
End Spec.

(** ** The ordinary range *)

(** A rate that is 0, or between one hundredth of a percent and 1000 %. *)
Definition tasaCorriente (t : Q) : Prop := t == 0 \/ (1 # 100 <= t /\ t <= 1000).

(** A valid input of ordinary size: an amount up to 10^9, at most 360
    instalments, and a nominal and a resulting rate that are each 0 or
    between 0.01 % and 1000 %.  In this range binary rounding is far below
    the sixth decimal; outside it a tiny monthly rate is lost when added
    to 1 or a power overflows, and the exact formulas stop describing what
    the program returns. *)
Definition entradaCorriente (input : CalculoFinancieroInput) : Prop :=
  entradaValida input /\
  importe input <= 1000000000 /\
  cuotas input <= 360 /\
  tasaCorriente (tna input) /\
  tasaCorriente (Spec.resultantRate input).

(** * Properties *)

(** Linear arithmetic over [Q] after turning a division by a literal into a
    product by its inverse. *)
Ltac sin_divisiones :=
  unfold Qdiv in *;
  repeat match goal with
    | |- context [Qinv (Zpos ?p # 1)] => change (Qinv (Zpos p # 1)) with (1 # p)
    | H : context [Qinv (Zpos ?p # 1)] |- _ =>
        change (Qinv (Zpos p # 1)) with (1 # p) in H
    end.
Ltac qlra := sin_divisiones; lra.

(** ** Numbers *)

Lemma Qlt_bool_iff (x y : Q) : Qlt_bool x y = true <-> x < y.
Proof.
  unfold Qlt_bool. rewrite negb_true_iff.
  destruct (Qle_bool y x) eqn:E.
  - apply Qle_bool_iff in E. split; [discriminate | intro; exfalso; lra].
  - split; [intros _ | reflexivity].
    destruct (Qlt_le_dec x y) as [L | L]; [exact L |].
    apply Qle_bool_iff in L. congruence.
Qed.

Lemma Qle_bool_false (x y : Q) : Qle_bool x y = false <-> y < x.
Proof.
  rewrite <- Qlt_bool_iff. unfold Qlt_bool. now rewrite negb_true_iff.
Qed.

Lemma Number_isInteger_iff (x : Q) : Number_isInteger x = true <-> esEntero x.
Proof.
  unfold Number_isInteger, esEntero. rewrite Qeq_bool_iff. split.
  - intro E. now exists (Qfloor x).
  - intros [z E]. rewrite E at 1. now rewrite E, Qfloor_Z.
Qed.

Lemma esEntero_floor (x : Q) : esEntero x -> x == inject_Z (Qfloor x).
Proof. intros [z E]. rewrite E at 1. now rewrite E, Qfloor_Z. Qed.

#[global] Instance Number_isInteger_compat : Proper (Qeq ==> eq) Number_isInteger.
Proof.
  intros x y E. unfold Number_isInteger.
  destruct (Qeq_bool x _) eqn:Ex, (Qeq_bool y _) eqn:Ey; try reflexivity.
  - apply Qeq_bool_iff in Ex. apply Qeq_bool_neq in Ey. exfalso; apply Ey.
    now rewrite <- E.
  - apply Qeq_bool_iff in Ey. apply Qeq_bool_neq in Ex. exfalso; apply Ex.
    now rewrite E.
Qed.

#[global] Instance Math_round_compat : Proper (Qeq ==> Qeq) Math_round.
Proof. intros x y E. unfold Math_round. now rewrite E. Qed.

Lemma Math_round_le (x y : Q) : x <= y -> Math_round x <= Math_round y.
Proof.
  intro L. unfold Math_round. rewrite <- Zle_Qle.
  apply Qfloor_resp_le. lra.
Qed.

(** Rounding to the nearest integer moves a number by half a unit at most. *)
Lemma Math_round_cerca (x : Q) : Qabs (Math_round x - x) <= 1 # 2.
Proof.
  unfold Math_round.
  pose proof (Qfloor_le (x + (1 # 2))) as L.
  pose proof (Qlt_floor (x + (1 # 2))) as U.
  rewrite inject_Z_plus in U. change (inject_Z 1) with 1 in U.
  apply Qabs_Qle_condition. split; lra.
Qed.

#[global] Instance round6_compat : Proper (Qeq ==> Qeq) round6.
Proof. intros x y E. unfold round6. now rewrite E. Qed.

#[global] Instance round2_compat : Proper (Qeq ==> Qeq) round2.
Proof. intros x y E. unfold round2. now rewrite E. Qed.

Lemma round6_le (x y : Q) : x <= y -> round6 x <= round6 y.
Proof.
  intro L. unfold round6.
  assert (Math_round (x * 1000000) <= Math_round (y * 1000000))
    by (apply Math_round_le; lra).
  qlra.
Qed.

(** Rounding to cents moves an amount by half a cent at most. *)
Lemma round2_cerca (x : Q) : Qabs (round2 x - x) <= 1 # 200.
Proof.
  unfold round2.
  pose proof (Math_round_cerca (x * 100)) as C.
  apply Qabs_Qle_condition in C. destruct C as [C1 C2].
  apply Qabs_Qle_condition.
  split; qlra.
Qed.


(** ** The validator and the entrance of the orchestrator *)

Lemma validarDatosEntrada_tabla (input : CalculoFinancieroInput) :
  Validacion input (validarDatosEntrada input).
Proof.
  unfold validarDatosEntrada.
  destruct (Qle_bool (importe input) 0) eqn:Ei.
  { apply validacion_importe. now apply Qle_bool_iff. }
  apply Qle_bool_false in Ei.
  destruct (Qle_bool (cuotas input) 0) eqn:Ec; cbn [orb].
  { apply validacion_cuotas; [exact Ei | left; now apply Qle_bool_iff]. }
  apply Qle_bool_false in Ec.
  destruct (Number_isInteger (cuotas input)) eqn:En; cbn [negb].
  2:{ apply validacion_cuotas; [exact Ei | right].
      rewrite <- Number_isInteger_iff. congruence. }
  apply Number_isInteger_iff in En.
  destruct (Qlt_bool (tna input) 0) eqn:Et.
  { apply validacion_tna; auto. now apply Qlt_bool_iff. }
  apply validacion_valida. repeat split; auto.
  destruct (Qlt_le_dec (tna input) 0) as [L | L]; [| exact L].
  apply Qlt_bool_iff in L. congruence.
Qed.

Lemma validarDatosEntrada_valida (input : CalculoFinancieroInput) :
  entradaValida input ->
  validarDatosEntrada input = {| isValid := true; errorMessage := None |}.
Proof.
  intros (Hi & Hc & Hn & Ht).
  destruct (validarDatosEntrada_tabla input) as [L | _ [L | L] | _ _ _ L | _];
    try reflexivity; try (exfalso; lra); contradiction.
Qed.

(** Unfolds the orchestrators on a valid input. *)
Ltac entrada_valida V :=
  cbv beta delta
    [Frances.calcularFinanciamiento FrancesRedondeado.calcularFinanciamiento
     Procesador.calcularFinanciamiento];
  rewrite (validarDatosEntrada_valida _ V); cbn [isValid negb errorMessage].

Lemma veredicto_de_validacion (input : CalculoFinancieroInput)
    (k : Completion ResultadoCalculos) (r : ResultadoCalculos) :
  (let validacion := validarDatosEntrada input in
   if negb (isValid validacion) then k = Throw (Error (errorMessage validacion))
   else k = Return r) ->
  Veredicto input k.
Proof.
  cbv zeta.
  destruct (validarDatosEntrada_tabla input); cbn [isValid negb errorMessage];
    intros ->; now constructor.
Qed.

(** C1, amended.  In each of the three revisions [calcularFinanciamiento]
    runs the validator first, and the first failing rule decides: an
    [importe <= 0] throws an [Error] whose message is "El importe debe ser
    mayor a cero"; otherwise [cuotas <= 0] or a [cuotas] that is not an
    integer throws "El número de cuotas debe ser un entero mayor a cero";
    otherwise [tna < 0] throws "La TNA no puede ser negativa".  A throw
    carries no result, and every other input returns a whole
    [ResultadoCalculos]. *)
Theorem calcularFinanciamiento_veredicto `{MathLib} (input : CalculoFinancieroInput) :
  Veredicto input (Frances.calcularFinanciamiento input) /\
  Veredicto input (FrancesRedondeado.calcularFinanciamiento input) /\
  Veredicto input (Procesador.calcularFinanciamiento input).
Proof.
  repeat split.
  - unfold Frances.calcularFinanciamiento.
    eapply veredicto_de_validacion. cbv zeta.
    destruct (negb (isValid (validarDatosEntrada input))); reflexivity.
  - unfold FrancesRedondeado.calcularFinanciamiento.
    eapply veredicto_de_validacion. cbv zeta.
    destruct (negb (isValid (validarDatosEntrada input))); reflexivity.
  - unfold Procesador.calcularFinanciamiento.
    eapply veredicto_de_validacion. cbv zeta.
    destruct (negb (isValid (validarDatosEntrada input))); reflexivity.
Qed.

(** C1 as the spec words it fails on the text of the message: the amount
    -100 is refused with the Spanish sentence of the source. *)
Lemma mensaje_de_importe_en_castellano :
  let input := mkInput (-100) 12 120 None None None None None in
  @Frances.calcularFinanciamiento MathLib_ejemplo input
    = Throw (Error (Some "El importe debe ser mayor a cero"%string)) /\
  @Frances.calcularFinanciamiento MathLib_ejemplo input
    <> Throw (Error (Some "amount must be greater than zero"%string)).
Proof.
  split; [reflexivity | discriminate].
Qed.

(** ** The counting loop *)

Section Bucle.
Context {A : Type} (hasta : Q) (body : Q -> A -> A).

Lemma siguiente_indice (k : nat) :
  inject_Z (Z.of_nat k) + 1 = inject_Z (Z.of_nat (S k)).
Proof.
  unfold Qplus, inject_Z. cbn [Qnum Qden]. f_equal. lia.
Qed.

(** Past the bound the loop does nothing, whatever fuel it is given. *)
Lemma paraCadaCuota_fin (fuel : nat) (i : Q) (acc : A) :
  hasta < i -> paraCadaCuota fuel hasta body i acc = acc.
Proof.
  intro L. destruct fuel as [| fuel]; [reflexivity |].
  cbn [paraCadaCuota]. apply Qle_bool_false in L. now rewrite L.
Qed.

(** While the index stays under the bound, [m] units of fuel are [m]
    turns of the body. *)
Lemma paraCadaCuota_tramo (m extra k : nat) (acc : A) :
  (forall i : nat, (k < i <= k + m)%nat -> inject_Z (Z.of_nat i) <= hasta) ->
  paraCadaCuota (m + extra) hasta body (inject_Z (Z.of_nat (S k))) acc
  = paraCadaCuota extra hasta body (inject_Z (Z.of_nat (S (k + m))))
      (fold_left (fun a i => body (inject_Z (Z.of_nat i)) a) (seq (S k) m) acc).
Proof.
  revert k acc. induction m as [| m IH]; intros k acc Hk.
  - cbn [Nat.add seq fold_left]. now rewrite Nat.add_0_r.
  - cbn [Nat.add paraCadaCuota seq fold_left].
    assert (G : Qle_bool (inject_Z (Z.of_nat (S k))) hasta = true).
    { apply Qle_bool_iff. apply Hk. lia. }
    rewrite G, siguiente_indice, IH.
    + now replace (S k + m)%nat with (k + S m)%nat by lia.
    + intros i Hi. apply Hk. lia.
Qed.

Lemma vueltas_bajo_la_cota (i : nat) :
  (0 < i <= vueltas hasta)%nat -> inject_Z (Z.of_nat i) <= hasta.
Proof.
  unfold vueltas. intros Hi.
  apply Qle_trans with (inject_Z (Qfloor hasta)); [| apply Qfloor_le].
  rewrite <- Zle_Qle. lia.
Qed.

Lemma vueltas_sobre_la_cota : hasta < inject_Z (Z.of_nat (S (vueltas hasta))).
Proof.
  unfold vueltas.
  apply Qlt_le_trans with (inject_Z (Qfloor hasta + 1)); [apply Qlt_floor |].
  rewrite <- Zle_Qle. lia.
Qed.

(** The loop from 1 runs its body once for each of 1, 2, ..., in this
    order, up to the integer part of the bound, and [vueltas hasta] is
    fuel enough: more fuel gives the same result. *)
Lemma paraCadaCuota_fuel (extra : nat) (acc : A) :
  paraCadaCuota (vueltas hasta + extra) hasta body 1 acc
  = fold_left (fun a i => body (inject_Z (Z.of_nat i)) a)
      (seq 1 (vueltas hasta)) acc.
Proof.
  change 1 with (inject_Z (Z.of_nat 1)).
  rewrite paraCadaCuota_tramo.
  - apply paraCadaCuota_fin. apply vueltas_sobre_la_cota.
  - intros i Hi. apply vueltas_bajo_la_cota. lia.
Qed.

Lemma paraCadaCuota_lista (acc : A) :
  paraCadaCuota (vueltas hasta) hasta body 1 acc
  = fold_left (fun a i => body (inject_Z (Z.of_nat i)) a)
      (seq 1 (vueltas hasta)) acc.
Proof.
  rewrite <- (paraCadaCuota_fuel 0). now rewrite Nat.add_0_r.
Qed.
End Bucle.

(** ** Powers *)

#[global] Instance Math_pow_compat `{MathLib} : Proper (Qeq ==> Qeq ==> Qeq) Math_pow.
Proof.
  intros x x' Ex y y' Ey. unfold Math_pow.
  rewrite <- (Number_isInteger_compat _ _ Ey).
  destruct (Number_isInteger y).
  - now rewrite Ex, Ey.
  - now apply pow_real_compat.
Qed.

Lemma Qfloor_num (n : nat) : Qfloor (num n) = Z.of_nat n.
Proof. apply Qfloor_Z. Qed.

Lemma esEntero_num (n : nat) : esEntero (num n).
Proof. now exists (Z.of_nat n). Qed.

(** At a whole exponent [Math.pow] is the exact power. *)
Lemma Math_pow_num `{MathLib} (x : Q) (n : nat) :
  Math_pow x (num n) = x ^ Z.of_nat n.
Proof.
  unfold Math_pow.
  destruct (Number_isInteger (num n)) eqn:E.
  - now rewrite Qfloor_num.
  - pose proof (proj2 (Number_isInteger_iff _) (esEntero_num n)). congruence.
Qed.

Lemma vueltas_num (n : nat) : vueltas (num n) = n.
Proof. unfold vueltas. rewrite Qfloor_num. apply Nat2Z.id. Qed.

(** A valid number of instalments is the natural number of turns of the
    loops, and there is one turn at least. *)
Lemma cuotas_validas (input : CalculoFinancieroInput) :
  entradaValida input ->
  cuotas input == num (vueltas (cuotas input)) /\ (0 < vueltas (cuotas input))%nat.
Proof.
  intros (_ & Hc & Hn & _).
  pose proof (esEntero_floor _ Hn) as E.
  assert (P : (0 < Qfloor (cuotas input))%Z).
  { rewrite Zlt_Qlt. now rewrite <- E. }
  unfold vueltas, num. split.
  - rewrite Z2Nat.id by lia. exact E.
  - lia.
Qed.

(** ** The day-count method: the coefficient of one instalment *)

Section CoeficienteCuota.
Context `{MathLib}.

Lemma num_menos_uno (i : nat) : (1 <= i)%nat -> num i - 1 == num (i - 1).
Proof.
  intro Hi. unfold num. rewrite Nat2Z.inj_sub by exact Hi.
  unfold Zminus. rewrite inject_Z_plus, inject_Z_opp. reflexivity.
Qed.

Lemma num_es_uno (i : nat) : Qeq_bool (num i) 1 = (i =? 1)%nat.
Proof.
  destruct (Nat.eqb_spec i 1) as [-> | N]; [reflexivity |].
  apply not_true_is_false. intro E. apply Qeq_bool_iff in E.
  change 1 with (inject_Z 1) in E. unfold num in E.
  rewrite inject_Z_injective in E. lia.
Qed.

#[global] Instance calcularCoeficienteCuota_compat :
  Proper (Qeq ==> Qeq ==> Qeq) Procesador.calcularCoeficienteCuota.
Proof.
  intros t t' Et i i' Ei. unfold Procesador.calcularCoeficienteCuota. cbv zeta.
  assert (Qeq_bool i 1 = Qeq_bool i' 1) as ->.
  { destruct (Qeq_bool i 1) eqn:E1, (Qeq_bool i' 1) eqn:E2; try reflexivity.
    - apply Qeq_bool_iff in E1. apply Qeq_bool_neq in E2. exfalso. apply E2.
      now rewrite <- Ei.
    - apply Qeq_bool_iff in E2. apply Qeq_bool_neq in E1. exfalso. apply E1.
      now rewrite Ei. }
  destruct (Qeq_bool i' 1); now rewrite Et, ?Ei.
Qed.

Lemma calcularCoeficienteCuota_formula (rate : Q) (i : nat) :
  (1 <= i)%nat ->
  Procesador.calcularCoeficienteCuota rate (num i) == Spec.discountCoefficient rate i.
Proof.
  intro Hi.
  unfold Procesador.calcularCoeficienteCuota, Spec.discountCoefficient. cbv zeta.
  rewrite num_es_uno. destruct (i =? 1)%nat; [reflexivity |].
  rewrite (num_menos_uno i Hi), Math_pow_num.
  rewrite Nat2Z.inj_sub by exact Hi. reflexivity.
Qed.

Lemma pegar_al_final {A B : Type} (f : A -> B) (l : list A) (acc : list B) :
  fold_left (fun detalles i => detalles ++ [f i]) l acc = acc ++ map f l.
Proof.
  revert acc. induction l as [| a l IH]; intro acc; cbn [fold_left map].
  - now rewrite app_nil_r.
  - rewrite IH, <- app_assoc. reflexivity.
Qed.

(** The record the detail builder pushes for the instalment [i]. *)
Lemma calcularDetallesPorCuota_lista
    (importe cuotas tnaCobrador coeficientePromedio tea cft tasaDirecta : Q) :
  Procesador.calcularDetallesPorCuota
    importe cuotas tnaCobrador coeficientePromedio tea cft tasaDirecta
  = map (fun i : nat =>
           {| d_numeroCuota := num i;
              d_importe := importe;
              d_tnaResultante := tnaCobrador;
              d_cuota := Procesador.calcularCuota importe coeficientePromedio;
              d_coeficiente :=
                round6 (Procesador.calcularCoeficienteCuota tnaCobrador (num i));
              d_coeficienteConIVA :=
                round6 (Procesador.calcularCoeficienteConIVA
                          (Procesador.calcularCoeficienteCuota tnaCobrador (num i)));
              d_tea := tea;
              d_cft := cft;
              d_tasaDirecta := tasaDirecta |})
      (seq 1 (vueltas cuotas)).
Proof.
  unfold Procesador.calcularDetallesPorCuota. cbv zeta.
  rewrite paraCadaCuota_lista.
  match goal with
  | |- _ = map ?f ?l => exact (pegar_al_final f l [])
  end.
Qed.

(** C3.  Under the day-count method the discount coefficient of the
    instalment [i], counted from 1, is [1 / factor28] for [i = 1] and
    [1 / (factor28 * factor30 ^ (i - 1))] for [i > 1]; the detail record of
    each instalment of a valid input carries it, rounded to 6 decimals.
    With a single instalment the loops visit the index 1 only, so the
    coefficient, the cost and the detail are written with the 28-day
    factor alone: the 30-day factor and its power are not computed. *)
Theorem coeficiente_de_cada_cuota :
  (forall (rate : Q) (i : nat), (1 <= i)%nat ->
     Procesador.calcularCoeficienteCuota rate (num i)
     == Spec.discountCoefficient rate i) /\
  (forall input : CalculoFinancieroInput, entradaValida input ->
     exists r ds,
       Procesador.calcularFinanciamiento input = Return r /\
       detallesPorCuota r = Some ds /\
       List.length ds = vueltas (cuotas input) /\
       forall i : nat, (1 <= i <= vueltas (cuotas input))%nat ->
         exists d, nth_error ds (i - 1) = Some d /\
           d_numeroCuota d = num i /\
           d_coeficiente d
           == round6 (Spec.discountCoefficient (Spec.resultantRate input) i)) /\
  (forall rate : Q,
     Procesador.calcularCoeficienteCuota rate 1 = 1 / Spec.factor28 rate) /\
  (forall (A : Type) (body : Q -> A -> A) (acc : A),
     paraCadaCuota (vueltas 1) 1 body 1 acc = body 1 acc) /\
  (forall importe rate : Q,
     Procesador.calcularCostoFinanciero importe 1 rate
     = importe * (1 - (1 / 1) * (0 + 1 / Spec.factor28 rate))) /\
  (forall rate : Q,
     Procesador.calcularCoeficientePromedio rate 1
     = round6 (1 / ((0 + 1 / Spec.factor28 rate) / 1))) /\
  (forall importe rate coeficientePromedio tea cft tasaDirecta : Q,
     map d_coeficiente
       (Procesador.calcularDetallesPorCuota
          importe 1 rate coeficientePromedio tea cft tasaDirecta)
     = [round6 (1 / Spec.factor28 rate)]).
Proof.
  split; [exact calcularCoeficienteCuota_formula |].
  split; [| repeat split; reflexivity].
  intros input V.
  destruct (cuotas_validas input V) as [Ec Hpos].
  entrada_valida V. cbv zeta.
  eexists. eexists. split; [reflexivity |].
  cbn [detallesPorCuota]. split; [reflexivity |].
  rewrite calcularDetallesPorCuota_lista.
  split; [now rewrite length_map, length_seq |].
  intros i Hi. eexists. split.
  - rewrite nth_error_map, nth_error_seq.
    destruct (Nat.ltb_spec (i - 1) (vueltas (cuotas input))) as [_ | F]; [| lia].
    cbn [option_map]. replace (1 + (i - 1))%nat with i by lia. reflexivity.
  - cbn [d_numeroCuota d_coeficiente]. split; [reflexivity |].
    apply round6_compat. apply calcularCoeficienteCuota_formula. lia.
Qed.
End CoeficienteCuota.

Lemma ejemplo_procesador_valido : entradaValida ejemplo_procesador.
Proof. unfold entradaValida. repeat split; try (now exists 3%Z); discriminate. Qed.

Lemma ejemplo_frances_valido : entradaValida ejemplo_frances.
Proof. unfold entradaValida. repeat split; try (now exists 12%Z); discriminate. Qed.

Lemma ejemplo_con_arancel_valido : entradaValida ejemplo_con_arancel.
Proof. unfold entradaValida. repeat split; try (now exists 12%Z); discriminate. Qed.

Lemma ejemplo_tasa_cero_valido : entradaValida ejemplo_tasa_cero.
Proof. unfold entradaValida. repeat split; try (now exists 3%Z); discriminate. Qed.

(** Membership of a concrete input in the ordinary range, by computation. *)
Ltac en_rango :=
  first [ left; reflexivity | right; split; vm_compute; discriminate ].
Ltac es_corriente V :=
  split; [exact V |];
  split; [vm_compute; discriminate |];
  split; [vm_compute; discriminate |];
  split; en_rango.

Lemma tasaCorriente_no_negativa (t : Q) : tasaCorriente t -> 0 <= t.
Proof. intros [E | [L _]]; lra. Qed.

Lemma ejemplo_procesador_corriente : entradaCorriente ejemplo_procesador.
Proof. es_corriente ejemplo_procesador_valido. Qed.

Lemma ejemplo_frances_corriente : entradaCorriente ejemplo_frances.
Proof. es_corriente ejemplo_frances_valido. Qed.

Lemma ejemplo_con_arancel_corriente : entradaCorriente ejemplo_con_arancel.
Proof. es_corriente ejemplo_con_arancel_valido. Qed.

Lemma coeficiente_de_cada_cuota_ejemplo :
  @Procesador.calcularCoeficienteCuota MathLib_ejemplo 50 (num 2)
  == Spec.discountCoefficient 50 2 /\
  exists r ds d,
    @Procesador.calcularFinanciamiento MathLib_ejemplo ejemplo_procesador = Return r /\
    detallesPorCuota r = Some ds /\
    List.length ds = 3%nat /\
    nth_error ds 1 = Some d /\
    d_numeroCuota d = num 2 /\
    d_coeficiente d == round6 (Spec.discountCoefficient 50 2).
Proof.
  destruct (@coeficiente_de_cada_cuota MathLib_ejemplo) as (F & O & _).
  split.
  - apply F. lia.
  - destruct (O ejemplo_procesador ejemplo_procesador_valido) as (r & ds & E & D & L & P).
    destruct (P 2%nat) as (d & Hd & Hn & Hc).
    + change (vueltas (cuotas ejemplo_procesador)) with 3%nat. lia.
    + exists r, ds, d. repeat split; assumption.
Defined.

(** ** The day-count method: the averaged coefficient *)

Section CoeficientePromedio.
Context `{MathLib}.

Lemma suma_desde (rate : Q) (l : list nat) (acc : Q) :
  (forall i, In i l -> (1 <= i)%nat) ->
  fold_left
    (fun a i => a + Procesador.calcularCoeficienteCuota rate (inject_Z (Z.of_nat i)))
    l acc
  == acc + fold_right Qplus 0 (map (Spec.discountCoefficient rate) l).
Proof.
  revert acc. induction l as [| i l IH]; intros acc Hl; cbn [fold_left map fold_right].
  - ring.
  - rewrite IH by (intros j Hj; apply Hl; now right).
    rewrite (calcularCoeficienteCuota_formula rate i) by (apply Hl; now left).
    ring.
Qed.

(** The accumulator of both summing loops is the sum of the spec. *)
Lemma sumaCoeficientes_suma (rate cuotas : Q) :
  paraCadaCuota (vueltas cuotas) cuotas
    (fun i sumaCoeficientes =>
       sumaCoeficientes + Procesador.calcularCoeficienteCuota rate i) 1 0
  == Spec.sumDiscount rate (vueltas cuotas).
Proof.
  rewrite paraCadaCuota_lista, suma_desde.
  - unfold Spec.sumDiscount. ring.
  - intros i Hi. apply in_seq in Hi. lia.
Qed.

Lemma calcularCoeficientePromedio_formula (rate cuotas : Q) :
  Procesador.calcularCoeficientePromedio rate cuotas
  == round6 (1 / (Spec.sumDiscount rate (vueltas cuotas) / cuotas)).
Proof.
  unfold Procesador.calcularCoeficientePromedio. cbv zeta.
  rewrite sumaCoeficientes_suma. reflexivity.
Qed.

Lemma calcularCostoFinanciero_formula (importe cuotas rate : Q) :
  Procesador.calcularCostoFinanciero importe cuotas rate
  == importe * (1 - (1 / cuotas) * Spec.sumDiscount rate (vueltas cuotas)).
Proof.
  unfold Procesador.calcularCostoFinanciero. cbv zeta.
  rewrite sumaCoeficientes_suma. reflexivity.
Qed.

End CoeficientePromedio.


(** ** The day-count method: cost and effective annual rate *)

#[global] Instance Qlt_bool_compat : Proper (Qeq ==> Qeq ==> eq) Qlt_bool.
Proof. intros x x' Ex y y' Ey. unfold Qlt_bool. now rewrite Ex, Ey. Qed.

#[global] Instance vueltas_compat : Proper (Qeq ==> eq) vueltas.
Proof. intros x y E. unfold vueltas. now rewrite E. Qed.

Section TasaEfectivaAnual.
Context `{MathLib}.

Lemma calcularCFT_formula (importe cuotas rate : Q) (n : nat) :
  cuotas == num n ->
  Procesador.calcularCFT importe cuotas rate
  == Spec.totalFinancialCostPct importe n rate.
Proof.
  intro Ec. unfold Procesador.calcularCFT, Spec.totalFinancialCostPct. cbv zeta.
  rewrite calcularCostoFinanciero_formula.
  unfold Spec.financialCost.
  rewrite (vueltas_compat _ _ Ec), vueltas_num. now rewrite Ec.
Qed.

Lemma calcularTEA_formula (importe cuotas rate : Q) (n : nat) :
  cuotas == num n ->
  Procesador.calcularTEA importe cuotas rate
  == Spec.effectiveAnnualRate importe n rate.
Proof.
  intro Ec. unfold Procesador.calcularTEA, Spec.effectiveAnnualRate. cbv zeta.
  assert (Ea : (28 + 30 * (cuotas - 1)) / 360 == Spec.years n).
  { unfold Spec.years, Spec.totalDays. now rewrite Ec. }
  rewrite (Qlt_bool_compat 0 0 (Qeq_refl 0) _ _ Ea).
  destruct (Qlt_bool 0 (Spec.years n) && Qlt_bool 0 importe).
  - rewrite Ea, calcularCostoFinanciero_formula.
    unfold Spec.financialCost.
    rewrite (vueltas_compat _ _ Ec), vueltas_num. now rewrite Ec.
  - now apply calcularCFT_formula.
Qed.

(** C6.  The effective annual rate of the day-count method is computed
    from financialCost = amount * (1 - (1/n) * sum of the discount
    coefficients), totalPayable = amount + financialCost, totalDays =
    28 + 30 * (n - 1) and years = totalDays / 360: it is
    ((totalPayable / amount) ^ (1 / years) - 1) * 100 when years > 0 and
    amount > 0, and the total financial cost percentage
    (financialCost / amount) * 100 otherwise.  This holds of the function
    at every amount, count and rate, and of the [tea] and [cft] fields
    returned for a valid input. *)
Theorem tea_procesador :
  (forall (importe rate : Q) (n : nat),
     Procesador.calcularTEA importe (num n) rate
     == Spec.effectiveAnnualRate importe n rate) /\
  (forall input : CalculoFinancieroInput, entradaValida input ->
     exists r,
       Procesador.calcularFinanciamiento input = Return r /\
       tea r == Spec.effectiveAnnualRate (importe input) (vueltas (cuotas input))
                  (Spec.resultantRate input) /\
       cft r == Spec.totalFinancialCostPct (importe input) (vueltas (cuotas input))
                  (Spec.resultantRate input)).
Proof.
  split.
  - intros importe rate n. now apply calcularTEA_formula.
  - intros input V. destruct (cuotas_validas input V) as [Ec _].
    entrada_valida V. cbv zeta.
    eexists. split; [reflexivity |]. cbn [tea cft].
    fold (Spec.resultantRate input). split.
    + now apply calcularTEA_formula.
    + now apply calcularCFT_formula.
Qed.

Lemma num_positivo (n : nat) : (0 < n)%nat -> 1 <= num n.
Proof.
  intro Hn. change 1 with (inject_Z 1). unfold num. rewrite <- Zle_Qle. lia.
Qed.

(** C10.  For every input that passes the validation the guard of the
    day-count [calcularTEA] holds: años = (28 + 30 * (cuotas - 1)) / 360
    is at least 28/360, hence positive, and importe is positive.  The
    fallback that returns the CFT is therefore never taken, and the [tea]
    returned is the compound day-count formula. *)
Theorem tea_procesador_sin_respaldo (input : CalculoFinancieroInput) :
  entradaValida input ->
  let diasTotales := 28 + 30 * (cuotas input - 1) in
  let años := diasTotales / 360 in
  let rate := Spec.resultantRate input in
  let costoFinanciero :=
    Procesador.calcularCostoFinanciero (importe input) (cuotas input) rate in
  28 / 360 <= años /\ 0 < años /\ 0 < importe input /\
  Qlt_bool 0 años && Qlt_bool 0 (importe input) = true /\
  exists r,
    Procesador.calcularFinanciamiento input = Return r /\
    tea r
    = (Math_pow ((importe input + costoFinanciero) / importe input) (1 / años) - 1)
      * 100.
Proof.
  intros V diasTotales años rate costoFinanciero.
  destruct (cuotas_validas input V) as [Ec Hn].
  pose proof (num_positivo _ Hn) as H1. rewrite <- Ec in H1.
  destruct V as (Hi & V').
  assert (Ha : 28 / 360 <= años) by (unfold años, diasTotales; qlra).
  assert (Hp : 0 < años) by qlra.
  assert (G : Qlt_bool 0 años && Qlt_bool 0 (importe input) = true).
  { apply andb_true_intro. split; now apply Qlt_bool_iff. }
  repeat split; try assumption.
  assert (V : entradaValida input) by (split; assumption).
  entrada_valida V. cbv zeta.
  eexists. split; [reflexivity |]. cbn [tea].
  fold (Spec.resultantRate input). fold rate.
  unfold Procesador.calcularTEA. cbv zeta.
  fold diasTotales. fold años. fold costoFinanciero.
  now rewrite G.
Qed.
End TasaEfectivaAnual.

Lemma tea_procesador_ejemplo :
  exists r,
    @Procesador.calcularFinanciamiento MathLib_ejemplo ejemplo_procesador = Return r /\
    tea r == @Spec.effectiveAnnualRate MathLib_ejemplo 10000 3 50 /\
    cft r == Spec.totalFinancialCostPct 10000 3 50.
Proof.
  destruct (@tea_procesador MathLib_ejemplo) as [_ O].
  exact (O ejemplo_procesador ejemplo_procesador_valido).
Defined.

Lemma tea_procesador_sin_respaldo_ejemplo :
  28 / 360 <= (28 + 30 * (3 - 1)) / 360 /\
  0 < (28 + 30 * (3 - 1)) / 360 /\
  0 < 10000 /\
  Qlt_bool 0 ((28 + 30 * (3 - 1)) / 360) && Qlt_bool 0 10000 = true /\
  exists r,
    @Procesador.calcularFinanciamiento MathLib_ejemplo ejemplo_procesador = Return r /\
    tea r
    = (@Math_pow MathLib_ejemplo
         ((10000 + @Procesador.calcularCostoFinanciero MathLib_ejemplo 10000 3 50)
          / 10000)
         (1 / ((28 + 30 * (3 - 1)) / 360)) - 1) * 100.
Proof.
  exact (@tea_procesador_sin_respaldo MathLib_ejemplo ejemplo_procesador
           ejemplo_procesador_valido).
Defined.

(** ** The two number models side by side *)

Section Acuerdo.
Import PrimFloat.

(** In the ordinary range the exact definitions and the binary64 ones agree
    within 1e-10, here at the ends of the range: the French coefficient at
    nominal rates of 120 %, 0.01 % and 1000 % with 12, 360 and 1
    instalments, unrounded and rounded, and the coefficient with IVA away
    from a tie. *)
Lemma binario64_de_acuerdo :
  Binario64.cerca
    (@Binario64.Frances.calcularCoeficiente Binario64.MathLib_ejemplo
       (Binario64.calcularTEM 120) 12)
    (@Frances.calcularCoeficiente MathLib_ejemplo (calcularTEM 120) 12) /\
  Binario64.cerca
    (@Binario64.Frances.calcularCoeficiente Binario64.MathLib_ejemplo
       (Binario64.calcularTEM 0.01) 360)
    (@Frances.calcularCoeficiente MathLib_ejemplo (calcularTEM (1 # 100)) 360) /\
  Binario64.cerca
    (@Binario64.Frances.calcularCoeficiente Binario64.MathLib_ejemplo
       (Binario64.calcularTEM 0.01) 1)
    (@Frances.calcularCoeficiente MathLib_ejemplo (calcularTEM (1 # 100)) 1) /\
  Binario64.cerca
    (@Binario64.Frances.calcularCoeficiente Binario64.MathLib_ejemplo
       (Binario64.calcularTEM 1000) 360)
    (@Frances.calcularCoeficiente MathLib_ejemplo (calcularTEM 1000) 360) /\
  Binario64.cerca
    (@Binario64.FrancesRedondeado.calcularCoeficiente Binario64.MathLib_ejemplo
       (Binario64.calcularTEM 120) 12)
    (@FrancesRedondeado.calcularCoeficiente MathLib_ejemplo (calcularTEM 120) 12) /\
  Binario64.cerca
    (@Binario64.FrancesRedondeado.calcularCoeficiente Binario64.MathLib_ejemplo
       (Binario64.calcularTEM 0.01) 360)
    (@FrancesRedondeado.calcularCoeficiente MathLib_ejemplo (calcularTEM (1 # 100)) 360) /\
  Binario64.cerca
    (@Binario64.FrancesRedondeado.calcularCoeficiente Binario64.MathLib_ejemplo
       (Binario64.calcularTEM 1000) 360)
    (@FrancesRedondeado.calcularCoeficiente MathLib_ejemplo (calcularTEM 1000) 360) /\
  Binario64.cerca
    (Binario64.FrancesRedondeado.calcularCoeficienteConIVA 0.146763)
    (FrancesRedondeado.calcularCoeficienteConIVA (146763 # 1000000)) /\
  Binario64.cerca
    (Binario64.Procesador.calcularCoeficienteConIVA 1.017959)
    (Procesador.calcularCoeficienteConIVA (1017959 # 1000000)).
Proof.
  unfold Binario64.cerca.
  repeat match goal with |- _ /\ _ => split end;
    vm_compute; first [reflexivity | discriminate].
Qed.
End Acuerdo.

(** ** Amounts: total, interest and the amount financed *)

Section Montos.
Import PrimFloat.

(** C8, on the binary64 code.  10000 pesos in 12 instalments at a nominal
    rate of 1e-14 % pass the validation.  The monthly rate is not 0, so
    the special case of [calcularCoeficiente] is skipped, but it is lost
    when added to 1: the power is 1, the denominator 0 and the coefficient
    infinite.  Total and interest are infinite with it, and the total minus
    the interest is NaN, not the amount, in both French revisions, with and
    without IVA.  This holds for every [Math.pow] that maps 1 to 1. *)
Theorem total_menos_interes_no_es_numero (M : Binario64.MathLib) :
  Binario64.Math_pow 1 12 = 1%float ->
  isValid (Binario64.validarDatosEntrada Binario64.ejemplo_tna_infima) = true /\
  let tem := Binario64.calcularTEM (Binario64.tna Binario64.ejemplo_tna_infima) in
  (tem =? 0)%float = false /\
  (1 + tem)%float = 1%float /\
  (exists r,
     Binario64.Frances.calcularFinanciamiento Binario64.ejemplo_tna_infima = Return r /\
     Binario64.coeficiente r = infinity /\
     Binario64.montoTotal r = infinity /\
     Binario64.interesTotal r = infinity /\
     is_nan (Binario64.montoTotal r - Binario64.interesTotal r) = true /\
     is_nan (Binario64.montoTotalConIVA r - Binario64.interesTotalConIVA r) = true) /\
  (exists r,
     Binario64.FrancesRedondeado.calcularFinanciamiento Binario64.ejemplo_tna_infima
     = Return r /\
     Binario64.coeficiente r = infinity /\
     Binario64.montoTotal r = infinity /\
     Binario64.interesTotal r = infinity /\
     is_nan (Binario64.montoTotal r - Binario64.interesTotal r) = true /\
     is_nan (Binario64.montoTotalConIVA r - Binario64.interesTotalConIVA r) = true).
Proof.
  intro P.
  assert (C1 : Binario64.Frances.calcularCoeficiente
                 (Binario64.calcularTEM (Binario64.tna Binario64.ejemplo_tna_infima))
                 (Binario64.cuotas Binario64.ejemplo_tna_infima) = infinity).
  { cbv -[Binario64.Math_pow]. rewrite P. vm_compute. reflexivity. }
  assert (C2 : Binario64.FrancesRedondeado.calcularCoeficiente
                 (Binario64.calcularTEM
                    (Binario64.tna Binario64.ejemplo_tna_infima
                     + Binario64.orDefault 0
                         (Binario64.arancelProcesador Binario64.ejemplo_tna_infima)
                     + Binario64.orDefault 0
                         (Binario64.feeRiesgoProcesador Binario64.ejemplo_tna_infima)
                     + Binario64.orDefault 0
                         (Binario64.adicionalCobrador Binario64.ejemplo_tna_infima)
                     + Binario64.orDefault 0
                         (Binario64.impuestos Binario64.ejemplo_tna_infima)))
                 (Binario64.cuotas Binario64.ejemplo_tna_infima) = infinity).
  { cbv -[Binario64.Math_pow Binario64.Math_round]. rewrite P. vm_compute. reflexivity. }
  split; [vm_compute; reflexivity |]. cbv zeta.
  split; [vm_compute; reflexivity |]. split; [vm_compute; reflexivity |].
  split.
  - eexists. split; [reflexivity |].
    cbn [Binario64.coeficiente Binario64.montoTotal Binario64.interesTotal
         Binario64.montoTotalConIVA Binario64.interesTotalConIVA].
    rewrite !C1.
    refine (conj _ (conj _ (conj _ (conj _ _)))); vm_compute; reflexivity.
  - eexists. split; [reflexivity |].
    cbn [Binario64.coeficiente Binario64.montoTotal Binario64.interesTotal
         Binario64.montoTotalConIVA Binario64.interesTotalConIVA].
    rewrite !C2.
    refine (conj _ (conj _ (conj _ (conj _ _)))); vm_compute; reflexivity.
Qed.

Lemma total_menos_interes_no_es_numero_ejemplo :
  @Binario64.Math_pow Binario64.MathLib_ejemplo 1 12 = 1%float /\
  isValid (Binario64.validarDatosEntrada Binario64.ejemplo_tna_infima) = true /\
  let tem := Binario64.calcularTEM (Binario64.tna Binario64.ejemplo_tna_infima) in
  PrimFloat.eqb tem 0 = false /\
  PrimFloat.add 1 tem = 1%float /\
  (exists r,
     @Binario64.Frances.calcularFinanciamiento Binario64.MathLib_ejemplo
       Binario64.ejemplo_tna_infima = Return r /\
     Binario64.coeficiente r = PrimFloat.infinity /\
     Binario64.montoTotal r = PrimFloat.infinity /\
     Binario64.interesTotal r = PrimFloat.infinity /\
     PrimFloat.is_nan
       (PrimFloat.sub (Binario64.montoTotal r) (Binario64.interesTotal r)) = true /\
     PrimFloat.is_nan
       (PrimFloat.sub (Binario64.montoTotalConIVA r) (Binario64.interesTotalConIVA r))
     = true) /\
  (exists r,
     @Binario64.FrancesRedondeado.calcularFinanciamiento Binario64.MathLib_ejemplo
       Binario64.ejemplo_tna_infima = Return r /\
     Binario64.coeficiente r = PrimFloat.infinity /\
     Binario64.montoTotal r = PrimFloat.infinity /\
     Binario64.interesTotal r = PrimFloat.infinity /\
     PrimFloat.is_nan
       (PrimFloat.sub (Binario64.montoTotal r) (Binario64.interesTotal r)) = true /\
     PrimFloat.is_nan
       (PrimFloat.sub (Binario64.montoTotalConIVA r) (Binario64.interesTotalConIVA r))
     = true).
Proof.
  split; [reflexivity |].
  apply (total_menos_interes_no_es_numero Binario64.MathLib_ejemplo). reflexivity.
Defined.
End Montos.

(** ** The coefficient with IVA *)

(** Rounding to 6 decimals gives a whole number of millionths, half a
    millionth away at most. *)
Lemma round6_cerca (x : Q) :
  (exists z : Z, round6 x == inject_Z z / 1000000) /\
  Qabs (round6 x - x) <= 1 # 2000000.
Proof.
  split; [now exists (Qfloor (x * 1000000 + (1 # 2))) |].
  unfold round6.
  pose proof (Math_round_cerca (x * 1000000)) as C.
  apply Qabs_Qle_condition in C. destruct C as [C1 C2].
  apply Qabs_Qle_condition. split; qlra.
Qed.

Section ConIVA.
Context `{MathLib}.

(** C7, amended.  For a valid input in the ordinary range, in the rounded
    French revision and in the day-count method the coefficient with IVA is
    the coefficient times 1.21 rounded to 6 decimals: a whole number of
    millionths, half a millionth away from the product at most (which of
    the two neighbours is returned when the product lies midway is left
    open).  In the first revision it is the product itself, not rounded.
    The factor is 1 + IVA, with IVA the named constant 0.21. *)
Theorem coeficiente_con_iva :
  1 + IVA = 121 # 100 /\
  (forall input : CalculoFinancieroInput, entradaCorriente input ->
     (exists r, FrancesRedondeado.calcularFinanciamiento input = Return r /\
        (exists z : Z, coeficienteConIVA r == inject_Z z / 1000000) /\
        Qabs (coeficienteConIVA r - coeficiente r * (1 + IVA)) <= 1 # 2000000) /\
     (exists r, Procesador.calcularFinanciamiento input = Return r /\
        (exists z : Z, coeficienteConIVA r == inject_Z z / 1000000) /\
        Qabs (coeficienteConIVA r - coeficiente r * (1 + IVA)) <= 1 # 2000000)) /\
  (forall input : CalculoFinancieroInput, entradaValida input ->
     exists r, Frances.calcularFinanciamiento input = Return r /\
       coeficienteConIVA r = coeficiente r * (1 + IVA)).
Proof.
  split; [reflexivity |]. split.
  - intros input (V & _). split.
    + entrada_valida V. cbv zeta. eexists. split; [reflexivity |].
      cbn [coeficienteConIVA coeficiente].
      match goal with
      | |- context [Qabs (_ - ?c * (1 + IVA))] => exact (round6_cerca (c * (1 + IVA)))
      end.
    + entrada_valida V. cbv zeta. eexists. split; [reflexivity |].
      cbn [coeficienteConIVA coeficiente].
      match goal with
      | |- context [Qabs (_ - ?c * (1 + IVA))] => exact (round6_cerca (c * (1 + IVA)))
      end.
  - intros input V. entrada_valida V. cbv zeta. eexists. split; reflexivity.
Qed.
End ConIVA.

Lemma coeficiente_con_iva_ejemplo :
  ((exists r,
      @FrancesRedondeado.calcularFinanciamiento MathLib_ejemplo ejemplo_frances
      = Return r /\
      (exists z : Z, coeficienteConIVA r == inject_Z z / 1000000) /\
      Qabs (coeficienteConIVA r - coeficiente r * (1 + IVA)) <= 1 # 2000000) /\
   (exists r,
      @Procesador.calcularFinanciamiento MathLib_ejemplo ejemplo_frances = Return r /\
      (exists z : Z, coeficienteConIVA r == inject_Z z / 1000000) /\
      Qabs (coeficienteConIVA r - coeficiente r * (1 + IVA)) <= 1 # 2000000)) /\
  (exists r, @Frances.calcularFinanciamiento MathLib_ejemplo ejemplo_frances = Return r /\
     coeficienteConIVA r = coeficiente r * (1 + IVA)).
Proof.
  destruct (@coeficiente_con_iva MathLib_ejemplo) as (_ & R & F).
  split.
  - exact (R ejemplo_frances ejemplo_frances_corriente).
  - exact (F ejemplo_frances ejemplo_frances_valido).
Defined.

(** A concrete inequality between two numbers, by computation. *)
Ltac distintos :=
  let E := fresh "E" in
  intro E; apply Qeq_bool_iff in E; vm_compute in E; discriminate E.

Section ConIVABinario64.
Import PrimFloat.

(** C7 as the spec words it fails twice.  In the first revision, for 10000
    pesos in 12 instalments at 120 %, the coefficient with IVA is the
    unrounded product, which has more than 6 decimals.  In the rounded
    revisions the product can lie midway between two millionths, and there
    the binary64 code does not round up: the coefficient 1.724450 times 1.21
    is 2.0865845, half-up 2.086585, and [calcularCoeficienteConIVA] on the
    binary64 number 1.72445 returns 2.086584; likewise 0.181550 gives
    0.219675 and not 0.219676. *)
Lemma coeficiente_con_iva_sin_redondear :
  (exists r,
     @Frances.calcularFinanciamiento MathLib_ejemplo ejemplo_frances = Return r /\
     ~ coeficienteConIVA r == round6 (coeficiente r * (121 # 100))) /\
  (round6 ((172445 # 100000) * (121 # 100)) == 2086585 # 1000000 /\
   Qabs (Binario64.valorExacto 1.72445%float - (172445 # 100000)) <= 1 # 10 ^ 15 /\
   Binario64.Procesador.calcularCoeficienteConIVA 1.72445%float = 2.086584%float /\
   Qabs (Binario64.valorExacto 2.086584%float - (2086584 # 1000000)) <= 1 # 10 ^ 15) /\
  (round6 ((18155 # 100000) * (121 # 100)) == 219676 # 1000000 /\
   Qabs (Binario64.valorExacto 0.18155%float - (18155 # 100000)) <= 1 # 10 ^ 15 /\
   Binario64.FrancesRedondeado.calcularCoeficienteConIVA 0.18155%float = 0.219675%float /\
   Qabs (Binario64.valorExacto 0.219675%float - (219675 # 1000000)) <= 1 # 10 ^ 15).
Proof.
  split; [eexists; split; [reflexivity | distintos] |].
  split; (split; [reflexivity |]; split; [vm_compute; discriminate |];
          split; [vm_compute; reflexivity | vm_compute; discriminate]).
Qed.
End ConIVABinario64.

(** ** The French system: which rate, and the annuity factor *)

Section CoeficienteFrances.
Context `{MathLib}.

Lemma calcularTEM_monthlyRate (rate : Q) : calcularTEM rate = Spec.monthlyRate rate.
Proof. reflexivity. Qed.

Lemma calcularCoeficiente_frances (tem cuotas : Q) (n : nat) :
  cuotas == num n ->
  Frances.calcularCoeficiente tem cuotas == Spec.annuityFactor tem n.
Proof.
  intro Ec. unfold Frances.calcularCoeficiente, Spec.annuityFactor. cbv zeta.
  destruct (Qeq_bool tem 0).
  - now rewrite Ec.
  - now rewrite Ec, Math_pow_num.
Qed.

Lemma calcularCoeficiente_redondeado (tem cuotas : Q) (n : nat) :
  cuotas == num n ->
  FrancesRedondeado.calcularCoeficiente tem cuotas
  == round6 (Spec.annuityFactor tem n).
Proof.
  intro Ec. unfold FrancesRedondeado.calcularCoeficiente, Spec.annuityFactor.
  cbv zeta. destruct (Qeq_bool tem 0).
  - fold (round6 (1 / cuotas)). now rewrite Ec.
  - match goal with |- Math_round (?c * 1000000) / 1000000 == _ =>
      fold (round6 c) end.
    now rewrite Ec, Math_pow_num.
Qed.


Lemma sinAdicionales_resultantRate (input : CalculoFinancieroInput) :
  sinAdicionales input -> Spec.resultantRate input == tna input.
Proof.
  intros (E1 & E2 & E3 & E4). unfold Spec.resultantRate.
  rewrite E1, E2, E3, E4. ring.
Qed.

(** C5, amended.  In the rounded French revision the resulting rate (tna
    plus the four fees, an absent fee counting 0) is the rate the monthly
    rate, and with it the coefficient and the TEA, are derived from; it is
    the nominal rate when no fee is given or all are 0.  The first
    revision reads importe, cuotas and tna only: it derives the monthly
    rate from the nominal rate whether or not fees are given, and two
    inputs that differ in their fees only have the same result. *)
Theorem tasa_de_la_que_sale_el_coeficiente :
  (forall input : CalculoFinancieroInput, entradaValida input ->
     exists r,
       FrancesRedondeado.calcularFinanciamiento input = Return r /\
       coeficiente r
       = FrancesRedondeado.calcularCoeficiente
           (calcularTEM (Spec.resultantRate input)) (cuotas input) /\
       tea r = FrancesRedondeado.calcularTEA (calcularTEM (Spec.resultantRate input))) /\
  (forall input : CalculoFinancieroInput,
     sinAdicionales input -> Spec.resultantRate input == tna input) /\
  (forall input : CalculoFinancieroInput, entradaValida input ->
     exists r,
       Frances.calcularFinanciamiento input = Return r /\
       coeficiente r
       = Frances.calcularCoeficiente (calcularTEM (tna input)) (cuotas input) /\
       tea r = Frances.calcularTEA (calcularTEM (tna input))) /\
  (forall input input' : CalculoFinancieroInput,
     importe input = importe input' ->
     cuotas input = cuotas input' ->
     tna input = tna input' ->
     Frances.calcularFinanciamiento input = Frances.calcularFinanciamiento input').
Proof.
  split; [| split; [exact sinAdicionales_resultantRate | split]].
  - intros input V. entrada_valida V. cbv zeta.
    eexists. repeat split; reflexivity.
  - intros input V. entrada_valida V. cbv zeta.
    eexists. repeat split; reflexivity.
  - intros input input' Ei Ec Et.
    unfold Frances.calcularFinanciamiento, validarDatosEntrada.
    now rewrite Ei, Ec, Et.
Qed.
End CoeficienteFrances.


Section CoeficienteBinario64.
Import PrimFloat.

End CoeficienteBinario64.

Lemma tasa_de_la_que_sale_el_coeficiente_ejemplo :
  (exists r,
     @FrancesRedondeado.calcularFinanciamiento MathLib_ejemplo ejemplo_con_arancel
     = Return r /\
     coeficiente r
     = @FrancesRedondeado.calcularCoeficiente MathLib_ejemplo (calcularTEM 125) 12 /\
     tea r = @FrancesRedondeado.calcularTEA MathLib_ejemplo (calcularTEM 125)) /\
  Spec.resultantRate ejemplo_frances == tna ejemplo_frances /\
  (exists r,
     @Frances.calcularFinanciamiento MathLib_ejemplo ejemplo_con_arancel = Return r /\
     coeficiente r = @Frances.calcularCoeficiente MathLib_ejemplo (calcularTEM 120) 12 /\
     tea r = @Frances.calcularTEA MathLib_ejemplo (calcularTEM 120)) /\
  @Frances.calcularFinanciamiento MathLib_ejemplo ejemplo_con_arancel
  = @Frances.calcularFinanciamiento MathLib_ejemplo ejemplo_frances.
Proof.
  destruct (@tasa_de_la_que_sale_el_coeficiente MathLib_ejemplo) as (R & S & F & I).
  split; [exact (R ejemplo_con_arancel ejemplo_con_arancel_valido) |].
  split; [apply S; repeat split; reflexivity |].
  split; [exact (F ejemplo_con_arancel ejemplo_con_arancel_valido) |].
  apply I; reflexivity.
Defined.

(** C5 as the spec words it fails in the first revision: the 5 % arancel is
    present and not zero, yet the coefficient is the one of the nominal
    120 %, not the one of the resulting 125 %. *)
Lemma arancel_no_leido :
  exists r,
    @Frances.calcularFinanciamiento MathLib_ejemplo ejemplo_con_arancel = Return r /\
    arancelProcesador ejemplo_con_arancel = Some 5 /\
    coeficiente r
    == @Frances.calcularCoeficiente MathLib_ejemplo
         (calcularTEM (tna ejemplo_con_arancel)) 12 /\
    ~ coeficiente r
      == @Frances.calcularCoeficiente MathLib_ejemplo
           (calcularTEM (Spec.resultantRate ejemplo_con_arancel)) 12.
Proof.
  eexists. split; [reflexivity |].
  split; [reflexivity | split; [reflexivity | distintos]].
Qed.

(** ** Powers and order *)

Section Potencias.

Lemma Qpower_siguiente (x : Q) (n : nat) :
  x ^ Z.of_nat (S n) == x * x ^ Z.of_nat n.
Proof.
  rewrite Nat2Z.inj_succ, <- Z.add_1_l.
  rewrite Qpower_plus' by lia. now rewrite Qpower_1_r.
Qed.

Lemma Qpower_no_negativa (x : Q) (n : nat) : 0 <= x -> 0 <= x ^ Z.of_nat n.
Proof. intro Hx. now apply Qpower_0_le. Qed.

(** A whole power does not decrease with a non-negative base. *)
Lemma Qpower_creciente (x y : Q) (n : nat) :
  0 <= x -> x <= y -> x ^ Z.of_nat n <= y ^ Z.of_nat n.
Proof.
  intros Hx Hxy. induction n as [| n IH].
  - cbn. lra.
  - rewrite !Qpower_siguiente.
    pose proof (Qpower_no_negativa x n Hx) as Px.
    apply Qle_trans with (x * y ^ Z.of_nat n).
    + rewrite !(Qmult_comm x). now apply Qmult_le_compat_r.
    + apply Qmult_le_compat_r; [exact Hxy |]. lra.
Qed.

Lemma Qpower_uno_o_mas (x : Q) (n : nat) : 1 <= x -> 1 <= x ^ Z.of_nat n.
Proof.
  intro Hx. rewrite <- (Qpower_1 (Z.of_nat n)).
  apply Qpower_creciente; lra.
Qed.

Context `{L : MathLibLaws}.

(** [Math.pow] does not decrease with a non-negative base, the exponent
    being positive. *)
Lemma Math_pow_creciente (x y e : Q) :
  0 < e -> 0 <= x -> x <= y -> Math_pow x e <= Math_pow y e.
Proof.
  intros He Hx Hxy. unfold Math_pow.
  destruct (Number_isInteger e) eqn:E.
  - apply Number_isInteger_iff, esEntero_floor in E.
    assert (P : (0 < Qfloor e)%Z) by (rewrite Zlt_Qlt; now rewrite <- E).
    rewrite <- (Z2Nat.id (Qfloor e)) by lia.
    now apply Qpower_creciente.
  - now apply pow_real_mono.
Qed.
End Potencias.

(** ** The annuity factor grows with the rate *)

Section Anualidad.

#[global] Instance geometrica_compat : Proper (Qeq ==> eq ==> Qeq) geometrica.
Proof.
  intros x y E n m <-. induction n as [| n IH]; cbn [geometrica].
  - reflexivity.
  - now rewrite IH, E.
Qed.

Lemma geometrica_no_negativa (x : Q) (n : nat) : 0 <= x -> 0 <= geometrica x n.
Proof.
  intro Hx. induction n as [| n IH]; cbn [geometrica]; [lra |].
  pose proof (Qpower_no_negativa x n Hx). lra.
Qed.

Lemma geometrica_positiva (x : Q) (n : nat) :
  0 < x -> (0 < n)%nat -> 0 < geometrica x n.
Proof.
  intros Hx Hn. destruct n as [| n]; [lia |]. cbn [geometrica].
  pose proof (geometrica_no_negativa x n (Qlt_le_weak _ _ Hx)).
  pose proof (Qpower_0_lt x (Z.of_nat n) Hx). lra.
Qed.

Lemma geometrica_de_uno (n : nat) : geometrica 1 n == num n.
Proof.
  induction n as [| n IH]; cbn [geometrica]; [reflexivity |].
  rewrite IH, Qpower_1. unfold num.
  rewrite Nat2Z.inj_succ, <- Z.add_1_r, inject_Z_plus. reflexivity.
Qed.

(** (1 + r)^n - 1 = r * (1 + (1 + r) + ... + (1 + r)^(n-1)) *)
Lemma potencia_menos_uno (r : Q) (n : nat) :
  (1 + r) ^ Z.of_nat n - 1 == r * geometrica (1 + r) n.
Proof.
  induction n as [| n IH]; cbn [geometrica].
  - cbn. ring.
  - rewrite Qpower_siguiente.
    set (p := (1 + r) ^ Z.of_nat n) in *. set (g := geometrica (1 + r) n) in *.
    transitivity (p - 1 + r * p); [ring |]. rewrite IH. ring.
Qed.

(** At a rate that is not negative the annuity factor is the last power
    over the geometric sum, the rate 0 included. *)
Lemma annuityFactor_geometrica (r : Q) (n : nat) :
  0 <= r -> (0 < n)%nat ->
  Spec.annuityFactor r n == (1 + r) ^ Z.of_nat n / geometrica (1 + r) n.
Proof.
  intros Hr Hn. unfold Spec.annuityFactor.
  destruct (Qeq_bool r 0) eqn:E.
  - apply Qeq_bool_iff in E.
    assert (E1 : 1 + r == 1) by lra.
    rewrite E1, Qpower_1, geometrica_de_uno. reflexivity.
  - apply Qeq_bool_neq in E.
    assert (Hpos : 0 < r) by (destruct (Qle_lt_or_eq _ _ Hr); [assumption |];
                              exfalso; apply E; now symmetry).
    pose proof (geometrica_positiva (1 + r) n ltac:(lra) Hn) as Hg.
    assert (D : (1 + r) ^ Z.of_nat n - 1 == r * geometrica (1 + r) n)
      by apply potencia_menos_uno.
    rewrite D. field. split; lra.
Qed.

Lemma producto_cruzado (x y : Q) (n : nat) :
  0 <= x -> x <= y ->
  x ^ Z.of_nat n * geometrica y n <= y ^ Z.of_nat n * geometrica x n.
Proof.
  intros Hx Hxy. induction n as [| n IH]; cbn [geometrica].
  - lra.
  - rewrite !Qpower_siguiente.
    assert (Hy : 0 <= y) by lra.
    pose proof (Qpower_no_negativa x n Hx) as Px.
    pose proof (Qpower_no_negativa y n Hy) as Py.
    pose proof (geometrica_no_negativa x n Hx) as Gx.
    set (p := x ^ Z.of_nat n) in *. set (q := y ^ Z.of_nat n) in *.
    set (g := geometrica x n) in *. set (h := geometrica y n) in *.
    assert (S1 : x * (p * h) <= x * (q * g)).
    { rewrite !(Qmult_comm x). now apply Qmult_le_compat_r. }
    assert (S2 : x * (q * g) <= y * (q * g)).
    { apply Qmult_le_compat_r; [exact Hxy |]. now apply Qmult_le_0_compat. }
    assert (S3 : x * (p * q) <= y * (p * q)).
    { apply Qmult_le_compat_r; [exact Hxy |]. now apply Qmult_le_0_compat. }
    apply Qle_trans with (x * (p * h) + x * (p * q)); [apply Qle_lteq; right; ring |].
    apply Qle_trans with (y * (q * g) + y * (p * q)); [lra |].
    apply Qle_lteq; right; ring.
Qed.

Lemma fracciones_en_orden (a b c d : Q) :
  0 < b -> 0 < d -> a * d <= c * b -> a / b <= c / d.
Proof.
  intros Hb Hd Hc.
  apply Qle_shift_div_r; [exact Hb |].
  apply Qle_trans with (c * b / d).
  - apply Qle_shift_div_l; [exact Hd | exact Hc].
  - apply Qle_lteq; right. field. lra.
Qed.

Lemma annuityFactor_creciente (r1 r2 : Q) (n : nat) :
  0 <= r1 -> r1 <= r2 -> (0 < n)%nat ->
  Spec.annuityFactor r1 n <= Spec.annuityFactor r2 n.
Proof.
  intros H1 H12 Hn.
  rewrite !annuityFactor_geometrica by (assumption || lra).
  apply fracciones_en_orden.
  - apply geometrica_positiva; [lra | exact Hn].
  - apply geometrica_positiva; [lra | exact Hn].
  - apply producto_cruzado; lra.
Qed.

Lemma annuityFactor_no_negativo (r : Q) (n : nat) :
  0 <= r -> (0 < n)%nat -> 0 <= Spec.annuityFactor r n.
Proof.
  intros Hr Hn. rewrite annuityFactor_geometrica by assumption.
  apply Qle_shift_div_l.
  - apply geometrica_positiva; [lra | exact Hn].
  - pose proof (Qpower_no_negativa (1 + r) n ltac:(lra)). lra.
Qed.
End Anualidad.

(** ** The discount coefficients shrink as the rate grows *)

Section Descuento.

Lemma factor28_creciente (t1 t2 : Q) :
  0 <= t1 -> t1 <= t2 -> 1 <= Spec.factor28 t1 /\ Spec.factor28 t1 <= Spec.factor28 t2.
Proof. intros H1 H12. unfold Spec.factor28. split; qlra. Qed.

Lemma factor30_creciente (t1 t2 : Q) :
  0 <= t1 -> t1 <= t2 -> 1 <= Spec.factor30 t1 /\ Spec.factor30 t1 <= Spec.factor30 t2.
Proof. intros H1 H12. unfold Spec.factor30. split; qlra. Qed.

(** The denominator of the discount coefficient of the instalment [i]. *)
Lemma discountCoefficient_inverso (t : Q) (i : nat) :
  (1 <= i)%nat ->
  Spec.discountCoefficient t i
  == 1 / (Spec.factor28 t * Spec.factor30 t ^ Z.of_nat (i - 1)).
Proof.
  intro Hi. unfold Spec.discountCoefficient.
  destruct (Nat.eqb_spec i 1) as [-> | N].
  - cbn [Nat.sub Z.of_nat Qpower]. now rewrite Qmult_1_r.
  - now rewrite Nat2Z.inj_sub by exact Hi.
Qed.

Lemma denominador_creciente (t1 t2 : Q) (k : nat) :
  0 <= t1 -> t1 <= t2 ->
  1 <= Spec.factor28 t1 * Spec.factor30 t1 ^ Z.of_nat k /\
  Spec.factor28 t1 * Spec.factor30 t1 ^ Z.of_nat k
  <= Spec.factor28 t2 * Spec.factor30 t2 ^ Z.of_nat k.
Proof.
  intros H1 H12.
  destruct (factor28_creciente t1 t2 H1 H12) as [A1 A2].
  destruct (factor30_creciente t1 t2 H1 H12) as [B1 B2].
  pose proof (Qpower_uno_o_mas (Spec.factor30 t1) k B1) as P1.
  pose proof (Qpower_creciente (Spec.factor30 t1) (Spec.factor30 t2) k
                ltac:(lra) B2) as P2.
  set (a1 := Spec.factor28 t1) in *. set (a2 := Spec.factor28 t2) in *.
  set (p1 := Spec.factor30 t1 ^ Z.of_nat k) in *.
  set (p2 := Spec.factor30 t2 ^ Z.of_nat k) in *.
  assert (S1 : a1 * 1 <= a1 * p1).
  { rewrite !(Qmult_comm a1). apply Qmult_le_compat_r; lra. }
  assert (S2 : a1 * p1 <= a1 * p2).
  { rewrite !(Qmult_comm a1). apply Qmult_le_compat_r; lra. }
  assert (S3 : a1 * p2 <= a2 * p2).
  { apply Qmult_le_compat_r; lra. }
  split; lra.
Qed.

Lemma inverso_decreciente (a b : Q) : 0 < a -> a <= b -> 1 / b <= 1 / a.
Proof.
  intros Ha Hab. apply fracciones_en_orden; lra.
Qed.

Lemma discountCoefficient_decreciente (t1 t2 : Q) (i : nat) :
  0 <= t1 -> t1 <= t2 -> (1 <= i)%nat ->
  0 < Spec.discountCoefficient t2 i /\
  Spec.discountCoefficient t2 i <= Spec.discountCoefficient t1 i /\
  Spec.discountCoefficient t1 i <= 1.
Proof.
  intros H1 H12 Hi. rewrite !discountCoefficient_inverso by exact Hi.
  destruct (denominador_creciente t1 t2 (i - 1) H1 H12) as [D1 D2].
  set (d1 := Spec.factor28 t1 * _) in *. set (d2 := Spec.factor28 t2 * _) in *.
  repeat split.
  - apply Qlt_shift_div_l; lra.
  - apply inverso_decreciente; lra.
  - apply Qle_shift_div_r; lra.
Qed.

Lemma suma_decreciente (t1 t2 : Q) (l : list nat) :
  0 <= t1 -> t1 <= t2 -> (forall i, In i l -> (1 <= i)%nat) ->
  0 <= fold_right Qplus 0 (map (Spec.discountCoefficient t2) l) /\
  fold_right Qplus 0 (map (Spec.discountCoefficient t2) l)
  <= fold_right Qplus 0 (map (Spec.discountCoefficient t1) l) /\
  fold_right Qplus 0 (map (Spec.discountCoefficient t1) l) <= num (List.length l).
Proof.
  intros H1 H12. induction l as [| i l IH]; intro Hl; cbn [map fold_right List.length].
  - repeat split; try lra. apply Qle_refl.
  - destruct IH as (I0 & I1 & I2); [intros j Hj; apply Hl; now right |].
    destruct (discountCoefficient_decreciente t1 t2 i H1 H12) as (D0 & D1 & D2);
      [apply Hl; now left |].
    assert (N : num (S (List.length l)) == 1 + num (List.length l)).
    { unfold num. rewrite Nat2Z.inj_succ, <- Z.add_1_l, inject_Z_plus. reflexivity. }
    rewrite N. repeat split; lra.
Qed.

(** The sum of the discount coefficients of the instalments 1..n is
    positive, does not exceed n, and does not grow with the rate. *)
Lemma sumDiscount_decreciente (t1 t2 : Q) (n : nat) :
  0 <= t1 -> t1 <= t2 -> (0 < n)%nat ->
  0 < Spec.sumDiscount t2 n /\
  Spec.sumDiscount t2 n <= Spec.sumDiscount t1 n /\
  Spec.sumDiscount t1 n <= num n.
Proof.
  intros H1 H12 Hn. unfold Spec.sumDiscount.
  destruct (suma_decreciente t1 t2 (seq 1 n) H1 H12) as (S0 & S1 & S2).
  { intros i Hi. apply in_seq in Hi. lia. }
  rewrite length_seq in S2. repeat split; try assumption.
  destruct n as [| n]; [lia |]. cbn [seq map fold_right].
  destruct (discountCoefficient_decreciente t1 t2 1 H1 H12 (le_n 1)) as (D0 & _).
  destruct (suma_decreciente t1 t2 (seq 2 n) H1 H12) as (T0 & _).
  { intros i Hi. apply in_seq in Hi. lia. }
  lra.
Qed.
End Descuento.

(** ** Monotonicity in the nominal rate *)

Section Monotonia.
Context `{L : MathLibLaws}.

Lemma calcularTEM_creciente (t1 t2 : Q) :
  0 <= t1 -> t1 <= t2 -> 0 <= calcularTEM t1 /\ calcularTEM t1 <= calcularTEM t2.
Proof. intros H1 H12. unfold calcularTEM. split; qlra. Qed.

Lemma calcularTasaDirecta_creciente (c1 c2 cuotas : Q) :
  0 < cuotas -> c1 <= c2 ->
  calcularTasaDirecta c1 cuotas <= calcularTasaDirecta c2 cuotas.
Proof.
  intros Hc H12. unfold calcularTasaDirecta.
  assert (c1 * cuotas <= c2 * cuotas) by (apply Qmult_le_compat_r; lra).
  lra.
Qed.

Lemma round6_no_negativo (x : Q) : 0 <= x -> 0 <= round6 x.
Proof.
  intro Hx. apply Qle_trans with (round6 0); [discriminate |].
  now apply round6_le.
Qed.

(** The TEA of the French system, in both revisions. *)
Lemma tea_frances_creciente (tem1 tem2 : Q) :
  0 <= tem1 -> tem1 <= tem2 ->
  (Math_pow (1 + tem1) 12 - 1) * 100 <= (Math_pow (1 + tem2) 12 - 1) * 100.
Proof.
  intros H1 H12.
  assert (Math_pow (1 + tem1) 12 <= Math_pow (1 + tem2) 12)
    by (apply Math_pow_creciente; lra).
  lra.
Qed.

(** The CFT of the French system, in both revisions. *)
Lemma cft_frances_creciente (c1 c2 cuotas : Q) :
  0 < cuotas -> 0 <= c1 -> c1 <= c2 ->
  (Math_pow (c1 * cuotas) (12 / cuotas) - 1) * 100
  <= (Math_pow (c2 * cuotas) (12 / cuotas) - 1) * 100.
Proof.
  intros Hc H1 H12.
  assert (Math_pow (c1 * cuotas) (12 / cuotas) <= Math_pow (c2 * cuotas) (12 / cuotas)).
  { apply Math_pow_creciente.
    - apply Qlt_shift_div_l; lra.
    - apply Qmult_le_0_compat; lra.
    - apply Qmult_le_compat_r; lra. }
  lra.
Qed.

Lemma frances_creciente (tem1 tem2 cuotas : Q) (n : nat) :
  cuotas == num n -> (0 < n)%nat -> 0 <= tem1 -> tem1 <= tem2 ->
  0 <= Frances.calcularCoeficiente tem1 cuotas /\
  Frances.calcularCoeficiente tem1 cuotas <= Frances.calcularCoeficiente tem2 cuotas.
Proof.
  intros Ec Hn H1 H12.
  rewrite !(calcularCoeficiente_frances _ cuotas n Ec). split.
  - now apply annuityFactor_no_negativo.
  - now apply annuityFactor_creciente.
Qed.

Lemma frances_redondeado_creciente (tem1 tem2 cuotas : Q) (n : nat) :
  cuotas == num n -> (0 < n)%nat -> 0 <= tem1 -> tem1 <= tem2 ->
  0 <= FrancesRedondeado.calcularCoeficiente tem1 cuotas /\
  FrancesRedondeado.calcularCoeficiente tem1 cuotas
  <= FrancesRedondeado.calcularCoeficiente tem2 cuotas.
Proof.
  intros Ec Hn H1 H12.
  rewrite !(calcularCoeficiente_redondeado _ cuotas n Ec). split.
  - apply round6_no_negativo. now apply annuityFactor_no_negativo.
  - apply round6_le. now apply annuityFactor_creciente.
Qed.

(** The mean of the discount coefficients, as both loops' users write it. *)
Lemma promedio_decreciente (t1 t2 cuotas : Q) (n : nat) :
  cuotas == num n -> (0 < n)%nat -> 0 <= t1 -> t1 <= t2 ->
  0 < (1 / cuotas) * Spec.sumDiscount t2 n /\
  (1 / cuotas) * Spec.sumDiscount t2 n <= (1 / cuotas) * Spec.sumDiscount t1 n /\
  (1 / cuotas) * Spec.sumDiscount t1 n <= 1 /\
  1 <= cuotas.
Proof.
  intros Ec Hn H1 H12.
  destruct (sumDiscount_decreciente t1 t2 n H1 H12 Hn) as (S0 & S1 & S2).
  pose proof (num_positivo n Hn) as Hc. rewrite <- Ec in Hc, S2.
  assert (Hi : 0 < 1 / cuotas) by (apply Qlt_shift_div_l; lra).
  set (s1 := Spec.sumDiscount t1 n) in *. set (s2 := Spec.sumDiscount t2 n) in *.
  repeat split; try assumption.
  - apply Qmult_lt_0_compat; assumption.
  - rewrite !(Qmult_comm (1 / cuotas)). apply Qmult_le_compat_r; lra.
  - apply Qle_trans with ((1 / cuotas) * cuotas).
    + rewrite !(Qmult_comm (1 / cuotas)). apply Qmult_le_compat_r; lra.
    + apply Qle_lteq; right. field. lra.
Qed.

Lemma procesador_coeficiente_creciente (t1 t2 cuotas : Q) (n : nat) :
  cuotas == num n -> (0 < n)%nat -> 0 <= t1 -> t1 < t2 ->
  Procesador.calcularCoeficiente t1 cuotas <= Procesador.calcularCoeficiente t2 cuotas.
Proof.
  intros Ec Hn H1 H12.
  destruct (promedio_decreciente t1 t2 cuotas n Ec Hn H1 (Qlt_le_weak _ _ H12))
    as (U0 & U1 & U2 & Hc).
  assert (En : vueltas cuotas = n) by (rewrite (vueltas_compat _ _ Ec); apply vueltas_num).
  assert (P : forall t, Procesador.calcularCoeficientePromedio t cuotas
                        == round6 (1 / ((1 / cuotas) * Spec.sumDiscount t n))).
  { intro t. rewrite calcularCoeficientePromedio_formula, En.
    apply round6_compat.
    unfold Qdiv. now rewrite (Qmult_comm (Spec.sumDiscount t n)), !Qmult_1_l. }
  unfold Procesador.calcularCoeficiente.
  assert (Qeq_bool t2 0 = false) as ->.
  { apply not_true_is_false. intro E. apply Qeq_bool_iff in E. lra. }
  rewrite (P t2).
  destruct (Qeq_bool t1 0).
  - fold (round6 (1 / cuotas)). apply round6_le.
    apply inverso_decreciente; lra.
  - rewrite (P t1). apply round6_le. apply inverso_decreciente; lra.
Qed.

Lemma financialCost_creciente (importe t1 t2 : Q) (n : nat) :
  0 < importe -> (0 < n)%nat -> 0 <= t1 -> t1 <= t2 ->
  0 <= Spec.financialCost importe n t1 /\
  Spec.financialCost importe n t1 <= Spec.financialCost importe n t2.
Proof.
  intros Hi Hn H1 H12.
  destruct (promedio_decreciente t1 t2 (num n) n (Qeq_refl _) Hn H1 H12)
    as (U0 & U1 & U2 & _).
  unfold Spec.financialCost.
  set (u1 := 1 / num n * Spec.sumDiscount t1 n) in *.
  set (u2 := 1 / num n * Spec.sumDiscount t2 n) in *.
  split.
  - apply Qmult_le_0_compat; lra.
  - rewrite !(Qmult_comm importe). apply Qmult_le_compat_r; lra.
Qed.

Lemma procesador_cft_creciente (importe t1 t2 cuotas : Q) (n : nat) :
  cuotas == num n -> (0 < n)%nat -> 0 < importe -> 0 <= t1 -> t1 <= t2 ->
  Procesador.calcularCFT importe cuotas t1 <= Procesador.calcularCFT importe cuotas t2.
Proof.
  intros Ec Hn Hi H1 H12.
  rewrite !(calcularCFT_formula importe cuotas _ n Ec).
  destruct (financialCost_creciente importe t1 t2 n Hi Hn H1 H12) as [F0 F1].
  unfold Spec.totalFinancialCostPct.
  assert (Spec.financialCost importe n t1 / importe
          <= Spec.financialCost importe n t2 / importe).
  { apply Qmult_le_compat_r; [exact F1 |]. apply Qinv_le_0_compat. lra. }
  lra.
Qed.

Lemma procesador_tea_creciente (importe t1 t2 cuotas : Q) (n : nat) :
  cuotas == num n -> (0 < n)%nat -> 0 < importe -> 0 <= t1 -> t1 <= t2 ->
  Procesador.calcularTEA importe cuotas t1 <= Procesador.calcularTEA importe cuotas t2.
Proof.
  intros Ec Hn Hi H1 H12.
  rewrite !(calcularTEA_formula importe cuotas _ n Ec).
  destruct (financialCost_creciente importe t1 t2 n Hi Hn H1 H12) as [F0 F1].
  unfold Spec.effectiveAnnualRate. cbv zeta.
  pose proof (num_positivo n Hn) as Hc.
  assert (Hy : 0 < Spec.years n) by (unfold Spec.years, Spec.totalDays; qlra).
  assert (Qlt_bool 0 (Spec.years n) && Qlt_bool 0 importe = true) as ->.
  { apply andb_true_intro. split; now apply Qlt_bool_iff. }
  set (f1 := Spec.financialCost importe n t1) in *.
  set (f2 := Spec.financialCost importe n t2) in *.
  assert (Math_pow ((importe + f1) / importe) (1 / Spec.years n)
          <= Math_pow ((importe + f2) / importe) (1 / Spec.years n)).
  { apply Math_pow_creciente.
    - apply Qlt_shift_div_l; lra.
    - apply Qle_shift_div_l; lra.
    - apply Qmult_le_compat_r; [lra |]. apply Qinv_le_0_compat. lra. }
  lra.
Qed.
End Monotonia.

Section IndicadoresCrecientes.
Context `{L : MathLibLaws}.

Lemma resultantRate_mismosAdicionales (a b : CalculoFinancieroInput) :
  mismosAdicionales a b ->
  Spec.resultantRate b == Spec.resultantRate a + (tna b - tna a).
Proof.
  intros (E1 & E2 & E3 & E4). unfold Spec.resultantRate.
  rewrite E1, E2, E3, E4. ring.
Qed.

End IndicadoresCrecientes.

Lemma ejemplo_tna_50_valido : entradaValida ejemplo_tna_50.
Proof. unfold entradaValida. repeat split; try (now exists 3%Z); discriminate. Qed.

Lemma ejemplo_tna_60_valido : entradaValida ejemplo_tna_60.
Proof. unfold entradaValida. repeat split; try (now exists 3%Z); discriminate. Qed.

Lemma ejemplo_tna_50_corriente : entradaCorriente ejemplo_tna_50.
Proof. es_corriente ejemplo_tna_50_valido. Qed.

Lemma ejemplo_tna_60_corriente : entradaCorriente ejemplo_tna_60.
Proof. es_corriente ejemplo_tna_60_valido. Qed.


Section IndicadoresBinario64.
Import PrimFloat.

End IndicadoresBinario64.

(** * Further properties of the code *)

(** ** The first revision: what the unrounded French system guarantees *)

Section FrancesExacto.
Context `{MathLib}.

Lemma calcularTEM_cero (t : Q) : t == 0 -> Qeq_bool (calcularTEM t) 0 = true.
Proof. intro E. apply Qeq_bool_iff. unfold calcularTEM. rewrite E. reflexivity. Qed.

Lemma Math_pow_doce (x : Q) : Math_pow x 12 = x ^ 12.
Proof. exact (Math_pow_num x 12). Qed.

(** X1.  At a nominal rate of 0 the first revision charges nothing: the
    coefficient is 1/cuotas, the direct rate and the TEA are 0, the total is
    the amount financed and the interest is 0. *)
Theorem frances_tasa_cero (input : CalculoFinancieroInput) :
  entradaValida input -> tna input == 0 ->
  exists r,
    Frances.calcularFinanciamiento input = Return r /\
    coeficiente r == 1 / cuotas input /\
    tasaDirecta r == 0 /\
    tea r == 0 /\
    montoTotal r == importe input /\
    interesTotal r == 0.
Proof.
  intros V Et. pose proof V as (Hi & Hc & _ & _).
  entrada_valida V. cbv zeta. eexists. split; [reflexivity |].
  cbn [coeficiente tasaDirecta tea montoTotal interesTotal].
  unfold Frances.calcularCoeficiente. rewrite (calcularTEM_cero _ Et).
  unfold calcularTasaDirecta, Frances.calcularTEA, Frances.calcularInteresTotal,
    Frances.calcularMontoTotal, Frances.calcularCuota.
  assert (E1 : 1 + calcularTEM (tna input) == 1)
    by (unfold calcularTEM; rewrite Et; reflexivity).
  split; [reflexivity |]. split; [field; lra |].
  split; [| split; field; lra].
  rewrite Math_pow_doce, E1. reflexivity.
Qed.

(** The product coefficient * cuotas is 1 at least when the monthly rate is
    not negative. *)
Lemma frances_uno_o_mas (tem cuotas : Q) (n : nat) :
  cuotas == num n -> (0 < n)%nat -> 0 <= tem ->
  1 <= Frances.calcularCoeficiente tem cuotas * cuotas.
Proof.
  intros Ec Hn Ht.
  pose proof (num_positivo n Hn) as Hc. rewrite <- Ec in Hc.
  assert (A : Spec.annuityFactor 0 n <= Spec.annuityFactor tem n)
    by (apply annuityFactor_creciente; [lra | exact Ht | exact Hn]).
  rewrite <- (calcularCoeficiente_frances tem cuotas n Ec) in A.
  assert (Z : Spec.annuityFactor 0 n == 1 / cuotas)
    by (unfold Spec.annuityFactor; cbn [Qeq_bool]; now rewrite Ec).
  rewrite Z in A.
  apply Qle_trans with ((1 / cuotas) * cuotas).
  - apply Qle_lteq; right. field. lra.
  - apply Qmult_le_compat_r; lra.
Qed.

(** X2.  In the first revision a valid input in the ordinary range never
    pays less than it borrows: the direct rate and the interest are not
    negative, with and without IVA, and the amounts with IVA are not below
    those without. *)
Theorem frances_interes_no_negativo (input : CalculoFinancieroInput) :
  entradaCorriente input ->
  exists r,
    Frances.calcularFinanciamiento input = Return r /\
    0 <= tasaDirecta r /\
    importe input <= montoTotal r /\
    0 <= interesTotal r /\
    montoTotal r <= montoTotalConIVA r /\
    0 <= interesTotalConIVA r.
Proof.
  intros (V & _). pose proof V as (Hi & Hc & _ & Ht).
  destruct (cuotas_validas input V) as [Ec Hn].
  destruct (calcularTEM_creciente (tna input) (tna input) Ht (Qle_refl _)) as [T0 _].
  pose proof (frances_uno_o_mas _ _ _ Ec Hn T0) as U.
  entrada_valida V. cbv zeta. eexists. split; [reflexivity |].
  cbn [tasaDirecta montoTotal interesTotal montoTotalConIVA interesTotalConIVA].
  unfold calcularTasaDirecta, Frances.calcularInteresTotal,
    Frances.calcularMontoTotal, Frances.calcularCuota,
    Frances.calcularCoeficienteConIVA.
  set (c := Frances.calcularCoeficiente _ _) in *.
  assert (M : importe input * 1 <= importe input * (c * cuotas input)).
  { rewrite !(Qmult_comm (importe input)). apply Qmult_le_compat_r; lra. }
  assert (I : importe input * (c * cuotas input) * 1
              <= importe input * (c * cuotas input) * (1 + IVA)).
  { rewrite !(Qmult_comm (importe input * (c * cuotas input))).
    apply Qmult_le_compat_r; [discriminate | lra]. }
  assert (A1 : importe input * c * cuotas input == importe input * (c * cuotas input))
    by ring.
  assert (A2 : importe input * (c * (1 + IVA)) * cuotas input
               == importe input * (c * cuotas input) * (1 + IVA)) by ring.
  rewrite A1, A2. repeat split; lra.
Qed.

(** X3.  In the first revision the indicators are tied exactly: the interest is
    the direct rate applied to the amount, and every amount with IVA is the
    one without times 1.21. *)
Theorem frances_relaciones (input : CalculoFinancieroInput) :
  entradaValida input ->
  exists r,
    Frances.calcularFinanciamiento input = Return r /\
    interesTotal r == importe input * tasaDirecta r / 100 /\
    montoTotal r == cuota r * cuotas input /\
    cuotaConIVA r == cuota r * (121 # 100) /\
    montoTotalConIVA r == montoTotal r * (121 # 100).
Proof.
  intros V. entrada_valida V. cbv zeta. eexists. split; [reflexivity |].
  cbn [tasaDirecta montoTotal interesTotal montoTotalConIVA cuota cuotaConIVA].
  unfold calcularTasaDirecta, Frances.calcularInteresTotal,
    Frances.calcularMontoTotal, Frances.calcularCuota,
    Frances.calcularCoeficienteConIVA, IVA.
  repeat split; field.
Qed.

(** (1 + x)^n >= 1 + n x for x >= 0. *)
Lemma bernoulli (x : Q) (n : nat) : 0 <= x -> 1 + num n * x <= (1 + x) ^ Z.of_nat n.
Proof.
  intro Hx. induction n as [| n IH].
  - change (num 0) with 0. change ((1 + x) ^ Z.of_nat 0) with 1. lra.
  - rewrite Qpower_siguiente.
    assert (N : num (S n) == 1 + num n).
    { unfold num. rewrite Nat2Z.inj_succ, <- Z.add_1_l, inject_Z_plus. reflexivity. }
    assert (P : 0 <= num n) by (unfold num; rewrite <- (Zle_Qle 0); lia).
    assert (S1 : (1 + x) * (1 + num n * x) <= (1 + x) * (1 + x) ^ Z.of_nat n).
    { rewrite !(Qmult_comm (1 + x)). apply Qmult_le_compat_r; lra. }
    assert (S2 : 0 <= num n * x * x).
    { apply Qmult_le_0_compat; [apply Qmult_le_0_compat |]; assumption. }
    rewrite N.
    apply Qle_trans with ((1 + x) * (1 + num n * x)); [| exact S1].
    apply Qle_trans with (1 + (1 + num n) * x + num n * x * x); [lra |].
    apply Qle_lteq; right; ring.
Qed.

(** X4.  The effective annual rate of the French system is never below the rate
    it is derived from: the nominal rate in the first revision, the
    resulting rate in the second when that rate is not negative. *)
Theorem tea_no_menor_que_tna (input : CalculoFinancieroInput) :
  entradaValida input ->
  (exists r, Frances.calcularFinanciamiento input = Return r /\ tna input <= tea r) /\
  (0 <= Spec.resultantRate input ->
   exists r, FrancesRedondeado.calcularFinanciamiento input = Return r /\
     Spec.resultantRate input <= tea r).
Proof.
  intros V. pose proof V as (_ & _ & _ & Ht).
  assert (B : forall t, 0 <= t -> t <= (Math_pow (1 + calcularTEM t) 12 - 1) * 100).
  { intros t H0. rewrite Math_pow_doce.
    destruct (calcularTEM_creciente t t H0 (Qle_refl _)) as [T _].
    pose proof (bernoulli (calcularTEM t) 12 T) as Bn.
    change (Z.of_nat 12) with 12%Z in Bn. change (num 12) with 12 in Bn.
    assert (E : 12 * calcularTEM t * 100 == t) by (unfold calcularTEM; field).
    lra. }
  split; [| intro H0].
  - entrada_valida V. cbv zeta. eexists. split; [reflexivity |].
    cbn [tea]. unfold Frances.calcularTEA. now apply B.
  - entrada_valida V. cbv zeta. eexists. split; [reflexivity |].
    cbn [tea]. fold (Spec.resultantRate input).
    unfold FrancesRedondeado.calcularTEA. now apply B.
Qed.


(** X6.  With 12 instalments the exponent of the CFT is 1, so the CFT of the
    French system is the direct rate. *)
Theorem cft_con_doce_cuotas (input : CalculoFinancieroInput) :
  entradaValida input -> cuotas input == 12 ->
  (exists r, Frances.calcularFinanciamiento input = Return r /\
     cft r == tasaDirecta r) /\
  (exists r, FrancesRedondeado.calcularFinanciamiento input = Return r /\
     cft r == tasaDirecta r).
Proof.
  intros V E12.
  assert (P : forall x, Math_pow x (12 / cuotas input) == x).
  { intro x. assert (E : 12 / cuotas input == num 1) by (rewrite E12; reflexivity).
    rewrite E, Math_pow_num. apply Qpower_1_r. }
  split.
  - entrada_valida V. cbv zeta. eexists. split; [reflexivity |].
    cbn [cft tasaDirecta]. unfold Frances.calcularCFT, calcularTasaDirecta. cbv zeta.
    now rewrite P.
  - entrada_valida V. cbv zeta. eexists. split; [reflexivity |].
    cbn [cft tasaDirecta]. unfold FrancesRedondeado.calcularCFT, calcularTasaDirecta.
    cbv zeta. now rewrite P.
Qed.
End FrancesExacto.

(** ** Rounding twice *)

Lemma Math_round_entero (z : Z) : Math_round (inject_Z z) == inject_Z z.
Proof.
  unfold Math_round.
  pose proof (Qfloor_le (inject_Z z + (1 # 2))) as Lo.
  pose proof (Qlt_floor (inject_Z z + (1 # 2))) as Up.
  set (f := Qfloor (inject_Z z + (1 # 2))) in *.
  assert (A : inject_Z f < inject_Z (z + 1)).
  { rewrite inject_Z_plus. change (inject_Z 1) with 1. lra. }
  assert (B : inject_Z z < inject_Z (f + 1)) by lra.
  rewrite <- Zlt_Qlt in A, B.
  assert (f = z) as -> by lia. reflexivity.
Qed.

Lemma round6_millonesimas (z : Z) : round6 (inject_Z z / 1000000) == inject_Z z / 1000000.
Proof.
  unfold round6.
  assert (E : inject_Z z / 1000000 * 1000000 == inject_Z z) by field.
  now rewrite E, Math_round_entero.
Qed.

Lemma round2_centavos (z : Z) : round2 (inject_Z z / 100) == inject_Z z / 100.
Proof.
  unfold round2.
  assert (E : inject_Z z / 100 * 100 == inject_Z z) by field.
  now rewrite E, Math_round_entero.
Qed.

(** Rounding a rounded number again changes nothing. *)
Lemma round6_round6 (x : Q) : round6 (round6 x) == round6 x.
Proof. unfold round6 at 2 3. unfold Math_round. apply round6_millonesimas. Qed.

(** ** The day-count method: the instalments one by one *)

Section CuotaPorCuota.
Context `{MathLib}.

(** X7.  For a rate that is not negative the discount coefficients lie in
    (0, 1] and do not grow with the number of the instalment: a later
    instalment is discounted at least as much as an earlier one. *)
Theorem coeficientes_de_cuota_decrecientes (t : Q) (i j : nat) :
  0 <= t -> (1 <= i <= j)%nat ->
  0 < Procesador.calcularCoeficienteCuota t (num j) /\
  Procesador.calcularCoeficienteCuota t (num j)
  <= Procesador.calcularCoeficienteCuota t (num i) /\
  Procesador.calcularCoeficienteCuota t (num i) <= 1.
Proof.
  intros Ht Hij.
  rewrite !calcularCoeficienteCuota_formula by lia.
  destruct (discountCoefficient_decreciente t t i Ht (Qle_refl _)) as (_ & _ & U); [lia |].
  destruct (discountCoefficient_decreciente t t j Ht (Qle_refl _)) as (P & _ & _); [lia |].
  repeat split; try assumption.
  rewrite !discountCoefficient_inverso by lia.
  destruct (factor28_creciente t t Ht (Qle_refl _)) as [A _].
  destruct (factor30_creciente t t Ht (Qle_refl _)) as [B _].
  destruct (denominador_creciente t t (i - 1) Ht (Qle_refl _)) as [D _].
  assert (Pw : Spec.factor30 t ^ Z.of_nat (i - 1) <= Spec.factor30 t ^ Z.of_nat (j - 1))
    by (apply Qpower_le_compat_l; [lia | exact B]).
  apply inverso_decreciente; [lra |].
  rewrite !(Qmult_comm (Spec.factor28 t)). apply Qmult_le_compat_r; lra.
Qed.


(** X9.  Every detail record of a valid input repeats the aggregate figures of
    the result: the amount, the resulting rate, the instalment, the TEA, the
    CFT and the direct rate are the same in all of them. *)
Theorem detalles_repiten_el_resultado (input : CalculoFinancieroInput) :
  entradaValida input ->
  exists r ds,
    Procesador.calcularFinanciamiento input = Return r /\
    detallesPorCuota r = Some ds /\
    Forall (fun d =>
              d_importe d = importe input /\
              d_tnaResultante d = Spec.resultantRate input /\
              d_cuota d = cuota r /\
              d_tea d = tea r /\
              d_cft d = cft r /\
              d_tasaDirecta d = tasaDirecta r) ds.
Proof.
  intro V. entrada_valida V. cbv zeta.
  eexists. eexists. split; [reflexivity |]. split; [reflexivity |].
  rewrite calcularDetallesPorCuota_lista. apply Forall_map, Forall_forall.
  intros i _. repeat split.
Qed.

(** X10.  The coefficient with IVA of a detail record is rounded twice, once by
    [calcularCoeficienteConIVA] and once by the builder; the second
    rounding changes nothing. *)
Theorem detalle_con_iva_redondeado_una_vez
    (importe cuotas tnaCobrador coeficientePromedio tea cft tasaDirecta : Q) :
  Forall (fun d =>
            d_coeficienteConIVA d
            == Procesador.calcularCoeficienteConIVA
                 (Procesador.calcularCoeficienteCuota tnaCobrador (d_numeroCuota d)))
    (Procesador.calcularDetallesPorCuota
       importe cuotas tnaCobrador coeficientePromedio tea cft tasaDirecta).
Proof.
  rewrite calcularDetallesPorCuota_lista. apply Forall_map, Forall_forall.
  intros i _. cbn [d_coeficienteConIVA d_numeroCuota].
  unfold Procesador.calcularCoeficienteConIVA. cbv zeta.
  apply round6_round6.
Qed.
End CuotaPorCuota.

(** ** The day-count method: bounds *)

Section CotasProcesador.
Context `{MathLib}.

Lemma suma_a_tasa_cero (l : list nat) :
  (forall i, In i l -> (1 <= i)%nat) ->
  fold_right Qplus 0 (map (Spec.discountCoefficient 0) l) == num (List.length l).
Proof.
  induction l as [| i l IH]; intro Hl; cbn [map fold_right List.length].
  - reflexivity.
  - rewrite IH by (intros j Hj; apply Hl; now right).
    rewrite discountCoefficient_inverso by (apply Hl; now left).
    assert (E28 : Spec.factor28 0 == 1) by reflexivity.
    assert (E30 : Spec.factor30 0 == 1) by reflexivity.
    rewrite E28, E30, Qpower_1.
    unfold num. rewrite Nat2Z.inj_succ, <- Z.add_1_l, inject_Z_plus. reflexivity.
Qed.

(** X11.  At the rate 0 the day-count formula gives the coefficient 1, not
    1/cuotas: every discount coefficient is 1 and so is the inverse of their
    mean.  The special case of [calcularCoeficiente] is therefore not a
    shortcut for the formula; from 2 instalments on it returns a smaller
    number. *)
Theorem formula_y_caso_especial_a_tasa_cero (n : nat) :
  (1 <= n)%nat ->
  Procesador.calcularCoeficientePromedio 0 (num n) == 1 /\
  ((2 <= n)%nat ->
   Procesador.calcularCoeficiente 0 (num n) <= 1 # 2 /\
   Procesador.calcularCoeficiente 0 (num n)
   < Procesador.calcularCoeficientePromedio 0 (num n)).
Proof.
  intro Hn.
  assert (Hc : 1 <= num n) by (apply num_positivo; lia).
  assert (P : Procesador.calcularCoeficientePromedio 0 (num n) == 1).
  { rewrite calcularCoeficientePromedio_formula, vueltas_num.
    unfold Spec.sumDiscount. rewrite suma_a_tasa_cero, length_seq.
    - assert (E : 1 / (num n / num n) == 1) by (field; lra).
      rewrite E. reflexivity.
    - intros i Hi. apply in_seq in Hi. lia. }
  split; [exact P |]. intro H2.
  assert (C : Procesador.calcularCoeficiente 0 (num n) <= 1 # 2).
  { unfold Procesador.calcularCoeficiente.
    change (Qeq_bool 0 0) with true. cbv iota.
    fold (round6 (1 / num n)).
    apply Qle_trans with (round6 (1 # 2)); [| discriminate].
    apply round6_le.
    assert (H2' : 2 <= num n).
    { change 2 with (inject_Z 2). unfold num. rewrite <- Zle_Qle. lia. }
    apply Qle_shift_div_r; lra. }
  split; [exact C |]. rewrite P. lra.
Qed.

(** X12.  For a valid input with a positive resulting rate the coefficient of the
    day-count method is 1 at least, so that the direct rate is at least
    (cuotas - 1) * 100. *)
Theorem procesador_coeficiente_uno_o_mas (input : CalculoFinancieroInput) :
  entradaValida input -> 0 < Spec.resultantRate input ->
  exists r,
    Procesador.calcularFinanciamiento input = Return r /\
    1 <= coeficiente r /\
    (cuotas input - 1) * 100 <= tasaDirecta r.
Proof.
  intros V Ht. pose proof V as (Hi & Hc & _ & _).
  destruct (cuotas_validas input V) as [Ec Hn].
  destruct (promedio_decreciente (Spec.resultantRate input) (Spec.resultantRate input)
              (cuotas input) _ Ec Hn (Qlt_le_weak _ _ Ht) (Qle_refl _))
    as (U0 & _ & U1 & _).
  entrada_valida V. cbv zeta. eexists. split; [reflexivity |].
  cbn [coeficiente tasaDirecta]. fold (Spec.resultantRate input).
  assert (C : 1 <= Procesador.calcularCoeficiente (Spec.resultantRate input)
                     (cuotas input)).
  { unfold Procesador.calcularCoeficiente.
    assert (Qeq_bool (Spec.resultantRate input) 0 = false) as ->.
    { apply not_true_is_false. intro E. apply Qeq_bool_iff in E. lra. }
    rewrite calcularCoeficientePromedio_formula.
    apply Qle_trans with (round6 1); [discriminate |]. apply round6_le.
    set (s := Spec.sumDiscount _ _) in *.
    assert (E : s / cuotas input == 1 / cuotas input * s) by (field; lra).
    rewrite E. apply Qle_shift_div_l; lra. }
  split; [exact C |]. unfold calcularTasaDirecta.
  assert (1 * cuotas input
          <= Procesador.calcularCoeficiente (Spec.resultantRate input) (cuotas input)
             * cuotas input) by (apply Qmult_le_compat_r; lra).
  lra.
Qed.

(** X13.  For a positive amount, a whole positive number of instalments and a
    rate that is not negative, the financial cost of the day-count method
    is not negative and stays below the amount, so the CFT lies in
    [0, 100). *)
Theorem costo_financiero_acotado (importe t : Q) (n : nat) :
  0 < importe -> (0 < n)%nat -> 0 <= t ->
  0 <= Procesador.calcularCostoFinanciero importe (num n) t /\
  Procesador.calcularCostoFinanciero importe (num n) t < importe /\
  0 <= Procesador.calcularCFT importe (num n) t /\
  Procesador.calcularCFT importe (num n) t < 100.
Proof.
  intros Hi Hn Ht.
  destruct (promedio_decreciente t t (num n) n (Qeq_refl _) Hn Ht (Qle_refl _))
    as (U0 & _ & U1 & _).
  assert (F : Procesador.calcularCostoFinanciero importe (num n) t
              == importe * (1 - 1 / num n * Spec.sumDiscount t n)).
  { rewrite calcularCostoFinanciero_formula, vueltas_num. reflexivity. }
  unfold Procesador.calcularCFT. cbv zeta. rewrite F.
  set (u := 1 / num n * Spec.sumDiscount t n) in *.
  assert (A : 0 <= importe * (1 - u)) by (apply Qmult_le_0_compat; lra).
  assert (B : importe * (1 - u) < importe * 1).
  { rewrite !(Qmult_comm importe). apply Qmult_lt_compat_r; lra. }
  assert (E : importe * (1 - u) / importe * 100 == (1 - u) * 100) by (field; lra).
  rewrite E. repeat split; lra.
Qed.

(** X14.  The CFT and the TEA of the day-count method are percentages that do
    not depend on the amount financed, as long as it is positive. *)
Theorem cft_y_tea_no_dependen_del_importe (importe importe' cuotas t : Q) :
  0 < importe -> 0 < importe' ->
  Procesador.calcularCFT importe cuotas t == Procesador.calcularCFT importe' cuotas t /\
  Procesador.calcularTEA importe cuotas t == Procesador.calcularTEA importe' cuotas t.
Proof.
  intros Hi Hi'.
  assert (C : forall a, 0 < a ->
            Procesador.calcularCostoFinanciero a cuotas t / a
            == 1 - 1 / cuotas * Spec.sumDiscount t (vueltas cuotas)).
  { intros a Ha. rewrite calcularCostoFinanciero_formula.
    set (u := 1 / cuotas * Spec.sumDiscount t (vueltas cuotas)). field. lra. }
  assert (F : Procesador.calcularCFT importe cuotas t
              == Procesador.calcularCFT importe' cuotas t).
  { unfold Procesador.calcularCFT. cbv zeta. now rewrite (C _ Hi), (C _ Hi'). }
  split; [exact F |].
  unfold Procesador.calcularTEA. cbv zeta.
  rewrite (proj2 (Qlt_bool_iff 0 importe) Hi), (proj2 (Qlt_bool_iff 0 importe') Hi').
  destruct (Qlt_bool 0 ((28 + 30 * (cuotas - 1)) / 360)); cbn [andb]; [| exact F].
  assert (B : forall a, 0 < a ->
            (a + Procesador.calcularCostoFinanciero a cuotas t) / a
            == 1 + (1 - 1 / cuotas * Spec.sumDiscount t (vueltas cuotas))).
  { intros a Ha. rewrite <- (C a Ha). field. lra. }
  now rewrite (B _ Hi), (B _ Hi').
Qed.
End CotasProcesador.

(** ** The rounded revisions: whole cents *)

Section Centavos.
Context `{MathLib}.

Lemma total_de_cuotas_redondeadas (x cuotas : Q) :
  esEntero cuotas -> round2 (round2 x * cuotas) == round2 x * cuotas.
Proof.
  intros [z Ez]. unfold round2 at 2 3. unfold Math_round.
  set (m := Qfloor (x * 100 + (1 # 2))).
  assert (E : inject_Z m / 100 * cuotas == inject_Z (m * z) / 100).
  { rewrite Ez, inject_Z_mult. field. }
  rewrite E. apply round2_centavos.
Qed.

(** X15.  In the two rounded revisions the instalment of a valid input in
    the ordinary range is within half a cent of importe * coeficiente, and
    the total is the instalment times the number of instalments: the
    rounding of [calcularMontoTotal] changes nothing, with and without
    IVA. *)
Theorem total_es_cuota_por_cuotas (input : CalculoFinancieroInput) :
  entradaCorriente input ->
  (exists r, FrancesRedondeado.calcularFinanciamiento input = Return r /\
     Qabs (cuota r - importe input * coeficiente r) <= 1 # 200 /\
     montoTotal r == cuota r * cuotas input /\
     montoTotalConIVA r == cuotaConIVA r * cuotas input) /\
  (exists r, Procesador.calcularFinanciamiento input = Return r /\
     Qabs (cuota r - importe input * coeficiente r) <= 1 # 200 /\
     montoTotal r == cuota r * cuotas input /\
     montoTotalConIVA r == cuotaConIVA r * cuotas input).
Proof.
  intros (V & _). pose proof V as (_ & _ & Hn & _). split.
  - entrada_valida V. cbv zeta. eexists. split; [reflexivity |].
    cbn [cuota coeficiente montoTotal montoTotalConIVA cuotaConIVA].
    split; [apply round2_cerca |].
    split; apply (total_de_cuotas_redondeadas _ _ Hn).
  - entrada_valida V. cbv zeta. eexists. split; [reflexivity |].
    cbn [cuota coeficiente montoTotal montoTotalConIVA cuotaConIVA].
    split; [apply round2_cerca |].
    split; apply (total_de_cuotas_redondeadas _ _ Hn).
Qed.
End Centavos.

(** ** Total, interest and the amount financed in the ordinary range *)

Section MontosCorrientes.
Context `{MathLib}.

Lemma interes_redondeado (montoTotal importe : Q) :
  Qabs (montoTotal - round2 (montoTotal - importe) - importe) <= 1 # 200.
Proof.
  pose proof (round2_cerca (montoTotal - importe)) as C.
  apply Qabs_Qle_condition in C. destruct C as [C1 C2].
  apply Qabs_Qle_condition. split; lra.
Qed.

Lemma interes_exacto (montoTotal importe : Q) :
  Qabs (montoTotal - (montoTotal - importe) - importe) <= 1 # 200.
Proof. apply Qabs_Qle_condition. split; lra. Qed.

(** X18.  For a valid input in the ordinary range, in the three revisions,
    the total to pay minus the total interest is the amount financed up to
    the rounding to 2 decimals (half a cent at most), for the amounts with
    IVA and for those without; in the first revision, which rounds nothing,
    the difference is the amount itself. *)
Theorem total_menos_interes_corriente (input : CalculoFinancieroInput) :
  entradaCorriente input ->
  (exists r, Frances.calcularFinanciamiento input = Return r /\ cuadra input r /\
     montoTotal r - interesTotal r == importe input /\
     montoTotalConIVA r - interesTotalConIVA r == importe input) /\
  (exists r, FrancesRedondeado.calcularFinanciamiento input = Return r /\
     cuadra input r) /\
  (exists r, Procesador.calcularFinanciamiento input = Return r /\ cuadra input r).
Proof.
  intros (V & _). repeat split.
  - entrada_valida V. cbv zeta. eexists. split; [reflexivity |].
    unfold cuadra, Frances.calcularInteresTotal.
    cbn [montoTotal interesTotal montoTotalConIVA interesTotalConIVA].
    repeat split; try apply interes_exacto; ring.
  - entrada_valida V. cbv zeta. eexists. split; [reflexivity |].
    unfold cuadra, FrancesRedondeado.calcularInteresTotal.
    cbn [montoTotal interesTotal montoTotalConIVA interesTotalConIVA]. cbv zeta.
    split; apply interes_redondeado.
  - entrada_valida V. cbv zeta. eexists. split; [reflexivity |].
    unfold cuadra, Procesador.calcularInteresTotal.
    cbn [montoTotal interesTotal montoTotalConIVA interesTotalConIVA]. cbv zeta.
    split; apply interes_redondeado.
Qed.
End MontosCorrientes.

(** ** The two French revisions side by side *)

Section DosFranceses.
Context `{MathLib}.

Lemma calcularCoeficiente_frances_compat (tem tem' cuotas : Q) :
  tem == tem' ->
  Frances.calcularCoeficiente tem cuotas == Frances.calcularCoeficiente tem' cuotas.
Proof.
  intro E. unfold Frances.calcularCoeficiente. cbv zeta.
  assert (Qeq_bool tem 0 = Qeq_bool tem' 0) as -> by now rewrite E.
  destruct (Qeq_bool tem' 0); now rewrite ?E.
Qed.

(** X16.  On a valid input without fees the second revision is the first one
    rounded: its coefficient is the 6-decimal rounding of the first
    revision's coefficient, and its TEA is the same number. *)
Theorem frances_redondeado_es_frances_redondeado (input : CalculoFinancieroInput) :
  entradaValida input -> sinAdicionales input ->
  exists r1 r2,
    Frances.calcularFinanciamiento input = Return r1 /\
    FrancesRedondeado.calcularFinanciamiento input = Return r2 /\
    coeficiente r2 == round6 (coeficiente r1) /\
    tea r2 == tea r1.
Proof.
  intros V S. pose proof (sinAdicionales_resultantRate input S) as Er.
  assert (Et : calcularTEM (Spec.resultantRate input) == calcularTEM (tna input))
    by (unfold calcularTEM; now rewrite Er).
  entrada_valida V. cbv zeta.
  eexists. eexists. split; [reflexivity |]. split; [reflexivity |].
  cbn [coeficiente tea]. fold (Spec.resultantRate input). split.
  - rewrite <- (calcularCoeficiente_frances_compat _ _ _ Et).
    unfold FrancesRedondeado.calcularCoeficiente, Frances.calcularCoeficiente. cbv zeta.
    destruct (Qeq_bool (calcularTEM (Spec.resultantRate input)) 0); reflexivity.
  - unfold FrancesRedondeado.calcularTEA, Frances.calcularTEA. now rewrite Et.
Qed.
End DosFranceses.

(** ** The form: what a field can hold *)

Section Formulario.

Lemma esDigito_no_es_punto (c : ascii) : esDigito c = true -> c <> "."%char.
Proof. intros D ->. discriminate D. Qed.

(** A text splits into its leading digits and what [saltarDigitos] leaves. *)
Lemma saltarDigitos_partes (s : string) :
  exists d : list ascii,
    list_ascii_of_string s = d ++ list_ascii_of_string (saltarDigitos s) /\
    Forall (fun c => esDigito c = true) d.
Proof.
  induction s as [| c s (d & E & F)]; cbn [saltarDigitos].
  - exists []. split; [reflexivity | constructor].
  - destruct (esDigito c) eqn:D.
    + exists (c :: d). cbn [list_ascii_of_string app]. split.
      * now rewrite E.
      * now constructor.
    + exists []. split; [reflexivity | constructor].
Qed.

Lemma digitos_sin_punto (d : list ascii) :
  Forall (fun c => esDigito c = true) d ->
  Forall (fun c => esDigito c = true \/ c = "."%char) d /\
  count_occ ascii_dec d "."%char = 0%nat.
Proof.
  induction 1 as [| c d D _ [IH1 IH2]]; [split; [constructor | reflexivity] |].
  split; [constructor; [now left | exact IH1] |].
  rewrite count_occ_cons_neq; [exact IH2 | now apply esDigito_no_es_punto].
Qed.

Lemma esTextoDecimal_sinSigno (s : string) : esTextoDecimal s = true -> sinSigno s.
Proof.
  unfold esTextoDecimal, sinSigno. intro T.
  destruct (saltarDigitos_partes s) as (d & E & F).
  destruct (digitos_sin_punto d F) as [F1 C1].
  rewrite E. destruct (saltarDigitos s) as [| c resto].
  - cbn [list_ascii_of_string]. rewrite app_nil_r. split; [exact F1 | lia].
  - destruct (Ascii.eqb_spec c "."%char) as [-> | N]; [| discriminate T].
    destruct (saltarDigitos_partes resto) as (d' & E' & F').
    destruct (digitos_sin_punto d' F') as [F1' C1'].
    destruct (saltarDigitos resto); [| discriminate T].
    cbn [list_ascii_of_string] in *. rewrite app_nil_r in E'. rewrite E'. split.
    + apply Forall_app. split; [exact F1 |]. constructor; [now right | exact F1'].
    + rewrite count_occ_app, C1, count_occ_cons_eq, C1' by reflexivity. lia.
Qed.

Lemma sinSigno_sin_menos (s : string) :
  sinSigno s -> ~ In "-"%char (list_ascii_of_string s).
Proof.
  intros [F _] I. rewrite Forall_forall in F.
  destruct (F _ I) as [D | D]; discriminate D.
Qed.

Lemma handlePorcentualChange_sinSigno (campo value : string) :
  sinSigno campo -> sinSigno (handlePorcentualChange campo value).
Proof.
  intro S. unfold handlePorcentualChange.
  destruct (String.eqb_spec value ""%string) as [-> | N]; cbn [orb].
  - split; [constructor | cbn; lia].
  - destruct (esTextoDecimal value) eqn:T; [now apply esTextoDecimal_sinSigno | exact S].
Qed.

(** X17.  Whatever is typed, in whatever order, a field of the form (the amount,
    the TNA and the four fees alike) holds digits and at most one dot: a
    minus sign never gets in, so no negative number can be typed, and a
    rejected text leaves the field as it was. *)
Theorem campos_sin_signo (inicial : string) (tecleado : list string) :
  sinSigno inicial ->
  (forall campo, In campo
     [fold_left handleImporteChange tecleado inicial;
      fold_left handleTnaChange tecleado inicial;
      fold_left handlePorcentualChange tecleado inicial] ->
     sinSigno campo /\ ~ In "-"%char (list_ascii_of_string campo)) /\
  (forall campo value,
     esTextoDecimal value = false -> value <> ""%string ->
     handlePorcentualChange campo value = campo).
Proof.
  intro S.
  assert (P : sinSigno (fold_left handlePorcentualChange tecleado inicial)).
  { revert inicial S. induction tecleado as [| v l IH]; intros inicial S;
      cbn [fold_left]; [exact S |].
    apply IH. now apply handlePorcentualChange_sinSigno. }
  split.
  - intros campo [<- | [<- | [<- | []]]];
      (split; [exact P | apply sinSigno_sin_menos; exact P]).
  - intros campo value T N. unfold handlePorcentualChange. rewrite T.
    destruct (String.eqb_spec value ""%string); [contradiction | reflexivity].
Qed.

Lemma campos_sin_signo_ejemplo :
  (forall campo, In campo
     [fold_left handleImporteChange ["1"; "12"; "12-"; "12.5"; "-3"]%string "0"%string;
      fold_left handleTnaChange ["1"; "12"; "12-"; "12.5"; "-3"]%string "0"%string;
      fold_left handlePorcentualChange ["1"; "12"; "12-"; "12.5"; "-3"]%string
        "0"%string] ->
     sinSigno campo /\ ~ In "-"%char (list_ascii_of_string campo)) /\
  (forall campo value,
     esTextoDecimal value = false -> value <> ""%string ->
     handlePorcentualChange campo value = campo).
Proof.
  apply (campos_sin_signo "0"%string ["1"; "12"; "12-"; "12.5"; "-3"]%string).
  split; [repeat constructor; now left | cbn; lia].
Defined.
End Formulario.

(** ** The further properties on the worked examples *)

Lemma frances_tasa_cero_ejemplo :
  exists r,
    @Frances.calcularFinanciamiento MathLib_ejemplo ejemplo_tasa_cero = Return r /\
    coeficiente r == 1 / 3 /\
    tasaDirecta r == 0 /\
    tea r == 0 /\
    montoTotal r == 10000 /\
    interesTotal r == 0.
Proof.
  apply (@frances_tasa_cero MathLib_ejemplo ejemplo_tasa_cero ejemplo_tasa_cero_valido).
  reflexivity.
Defined.

Lemma frances_interes_no_negativo_ejemplo :
  exists r,
    @Frances.calcularFinanciamiento MathLib_ejemplo ejemplo_frances = Return r /\
    0 <= tasaDirecta r /\
    10000 <= montoTotal r /\
    0 <= interesTotal r /\
    montoTotal r <= montoTotalConIVA r /\
    0 <= interesTotalConIVA r.
Proof.
  exact (@frances_interes_no_negativo MathLib_ejemplo ejemplo_frances
           ejemplo_frances_corriente).
Defined.

Lemma frances_relaciones_ejemplo :
  exists r,
    @Frances.calcularFinanciamiento MathLib_ejemplo ejemplo_frances = Return r /\
    interesTotal r == 10000 * tasaDirecta r / 100 /\
    montoTotal r == cuota r * 12 /\
    cuotaConIVA r == cuota r * (121 # 100) /\
    montoTotalConIVA r == montoTotal r * (121 # 100).
Proof.
  exact (@frances_relaciones MathLib_ejemplo ejemplo_frances ejemplo_frances_valido).
Defined.

Lemma tea_no_menor_que_tna_ejemplo :
  (exists r, @Frances.calcularFinanciamiento MathLib_ejemplo ejemplo_con_arancel
             = Return r /\ 120 <= tea r) /\
  (exists r, @FrancesRedondeado.calcularFinanciamiento MathLib_ejemplo ejemplo_con_arancel
             = Return r /\ Spec.resultantRate ejemplo_con_arancel <= tea r).
Proof.
  destruct (@tea_no_menor_que_tna MathLib_ejemplo ejemplo_con_arancel
              ejemplo_con_arancel_valido) as [A B].
  split; [exact A | apply B; discriminate].
Defined.


Lemma cft_con_doce_cuotas_ejemplo :
  (exists r, @Frances.calcularFinanciamiento MathLib_ejemplo ejemplo_frances = Return r /\
     cft r == tasaDirecta r) /\
  (exists r, @FrancesRedondeado.calcularFinanciamiento MathLib_ejemplo ejemplo_frances
             = Return r /\ cft r == tasaDirecta r).
Proof.
  apply (@cft_con_doce_cuotas MathLib_ejemplo ejemplo_frances ejemplo_frances_valido).
  reflexivity.
Defined.

Lemma coeficientes_de_cuota_decrecientes_ejemplo :
  0 < @Procesador.calcularCoeficienteCuota MathLib_ejemplo 50 (num 3) /\
  @Procesador.calcularCoeficienteCuota MathLib_ejemplo 50 (num 3)
  <= @Procesador.calcularCoeficienteCuota MathLib_ejemplo 50 (num 1) /\
  @Procesador.calcularCoeficienteCuota MathLib_ejemplo 50 (num 1) <= 1.
Proof.
  apply (@coeficientes_de_cuota_decrecientes MathLib_ejemplo 50 1 3);
    [discriminate | lia].
Defined.


Lemma detalles_repiten_el_resultado_ejemplo :
  exists r ds,
    @Procesador.calcularFinanciamiento MathLib_ejemplo ejemplo_procesador = Return r /\
    detallesPorCuota r = Some ds /\
    Forall (fun d =>
              d_importe d = 10000 /\
              d_tnaResultante d = Spec.resultantRate ejemplo_procesador /\
              d_cuota d = cuota r /\
              d_tea d = tea r /\
              d_cft d = cft r /\
              d_tasaDirecta d = tasaDirecta r) ds.
Proof.
  exact (@detalles_repiten_el_resultado MathLib_ejemplo ejemplo_procesador
           ejemplo_procesador_valido).
Defined.

Lemma formula_y_caso_especial_a_tasa_cero_ejemplo :
  @Procesador.calcularCoeficientePromedio MathLib_ejemplo 0 (num 3) == 1 /\
  @Procesador.calcularCoeficiente MathLib_ejemplo 0 (num 3) <= 1 # 2 /\
  @Procesador.calcularCoeficiente MathLib_ejemplo 0 (num 3)
  < @Procesador.calcularCoeficientePromedio MathLib_ejemplo 0 (num 3).
Proof.
  destruct (@formula_y_caso_especial_a_tasa_cero MathLib_ejemplo 3) as [P C]; [lia |].
  split; [exact P | apply C; lia].
Defined.

Lemma procesador_coeficiente_uno_o_mas_ejemplo :
  exists r,
    @Procesador.calcularFinanciamiento MathLib_ejemplo ejemplo_procesador = Return r /\
    1 <= coeficiente r /\
    (3 - 1) * 100 <= tasaDirecta r.
Proof.
  apply (@procesador_coeficiente_uno_o_mas MathLib_ejemplo ejemplo_procesador
           ejemplo_procesador_valido).
  reflexivity.
Defined.

Lemma costo_financiero_acotado_ejemplo :
  0 <= @Procesador.calcularCostoFinanciero MathLib_ejemplo 10000 (num 3) 50 /\
  @Procesador.calcularCostoFinanciero MathLib_ejemplo 10000 (num 3) 50 < 10000 /\
  0 <= @Procesador.calcularCFT MathLib_ejemplo 10000 (num 3) 50 /\
  @Procesador.calcularCFT MathLib_ejemplo 10000 (num 3) 50 < 100.
Proof.
  apply (@costo_financiero_acotado MathLib_ejemplo 10000 50 3);
    [reflexivity | lia | discriminate].
Defined.

Lemma cft_y_tea_no_dependen_del_importe_ejemplo :
  @Procesador.calcularCFT MathLib_ejemplo 10000 3 50
  == @Procesador.calcularCFT MathLib_ejemplo 500 3 50 /\
  @Procesador.calcularTEA MathLib_ejemplo 10000 3 50
  == @Procesador.calcularTEA MathLib_ejemplo 500 3 50.
Proof.
  apply (@cft_y_tea_no_dependen_del_importe MathLib_ejemplo 10000 500 3 50);
    reflexivity.
Defined.

Lemma total_menos_interes_corriente_ejemplo :
  (exists r, @Frances.calcularFinanciamiento MathLib_ejemplo ejemplo_frances = Return r /\
     cuadra ejemplo_frances r /\
     montoTotal r - interesTotal r == importe ejemplo_frances /\
     montoTotalConIVA r - interesTotalConIVA r == importe ejemplo_frances) /\
  (exists r,
     @FrancesRedondeado.calcularFinanciamiento MathLib_ejemplo ejemplo_frances = Return r /\
     cuadra ejemplo_frances r) /\
  (exists r, @Procesador.calcularFinanciamiento MathLib_ejemplo ejemplo_frances = Return r /\
     cuadra ejemplo_frances r).
Proof.
  exact (@total_menos_interes_corriente MathLib_ejemplo ejemplo_frances
           ejemplo_frances_corriente).
Defined.

Lemma total_es_cuota_por_cuotas_ejemplo :
  (exists r,
     @FrancesRedondeado.calcularFinanciamiento MathLib_ejemplo ejemplo_procesador
     = Return r /\
     Qabs (cuota r - 10000 * coeficiente r) <= 1 # 200 /\
     montoTotal r == cuota r * 3 /\
     montoTotalConIVA r == cuotaConIVA r * 3) /\
  (exists r,
     @Procesador.calcularFinanciamiento MathLib_ejemplo ejemplo_procesador = Return r /\
     Qabs (cuota r - 10000 * coeficiente r) <= 1 # 200 /\
     montoTotal r == cuota r * 3 /\
     montoTotalConIVA r == cuotaConIVA r * 3).
Proof.
  exact (@total_es_cuota_por_cuotas MathLib_ejemplo ejemplo_procesador
           ejemplo_procesador_corriente).
Defined.

Lemma frances_redondeado_es_frances_redondeado_ejemplo :
  exists r1 r2,
    @Frances.calcularFinanciamiento MathLib_ejemplo ejemplo_frances = Return r1 /\
    @FrancesRedondeado.calcularFinanciamiento MathLib_ejemplo ejemplo_frances
    = Return r2 /\
    coeficiente r2 == round6 (coeficiente r1) /\
    tea r2 == tea r1.
Proof.
  apply (@frances_redondeado_es_frances_redondeado MathLib_ejemplo ejemplo_frances
           ejemplo_frances_valido).
  repeat split; reflexivity.
Defined.
